(** * The Matrix connector of opsdroid: transport shim and event bridge

    A shallow embedding of [opsdroid/connector/matrix/matrix_async.py]
    (class [AsyncHTTPAPI]) and of the event-translation contract that
    [tests/test_connector_matrix.py] exercises, with the properties the
    specification states about them.

    Python values are an inductive type, dictionaries passed as keyword
    arguments ([headers], [query_params]) are finite maps, exceptions are a
    third kind of outcome next to a returned value, and the HTTP client is
    a world state: the responses the server is going to give, the requests
    the client has been asked to issue, the suspensions requested from
    the event loop, and the order in which the two happened. *)

From Stdlib Require Import ZArith QArith List String Ascii Bool Lia.
From stdpp Require Import base option gmap strings pretty.
Import ListNotations.

Set Warnings "-register-all".

Local Open Scope Z_scope.
Local Open Scope string_scope.
Local Open Scope list_scope.

(* ===================================================================== *)
(** ** Python values, strings and exceptions *)
(* ===================================================================== *)

Module Py.

(** A [float]: a finite double, given by its value, an infinity, or
    not-a-number.  [json.loads] yields [Infinity false] for a number
    beyond the double range (1e400), and reads the literals [Infinity]
    and [NaN]. *)
Inductive pyfloat : Type :=
| Finite (q : Q)
| Infinity (negative : bool)
| NaN.

(** The values that travel through the connector: what [json.loads]
    produces and [json.dumps] accepts.  A [dict] keeps its insertion order,
    so it is an association list; its keys are strings.  A string is the
    sequence of the bytes of its UTF-8 encoding. *)
Inductive pyval : Type :=
| PNone
| PBool (b : bool)
| PInt (n : Z)
| PFloat (x : pyfloat)
| PStr (s : string)
| PList (items : list pyval)
| PDict (entries : list (string * pyval)).

(** The exceptions the modelled code can raise or let through. *)
Inductive exc : Type :=
| MatrixError (msg : string)
| MatrixRequestError (code : Z) (content : string)
| KeyError (key : string)
| TypeError
| AttributeError
| ZeroDivisionError
| OverflowError
| ValueError
| DecodeError.

(** A pure operation either yields a value or raises. *)
Inductive res (A : Type) : Type :=
| Ok (a : A)
| Err (e : exc).
Arguments Ok {A} a.
Arguments Err {A} e.

#[export] Instance res_ret : MRet res := @Ok.
#[export] Instance res_bind : MBind res :=
  fun A B k r => match r with Ok a => k a | Err e => Err e end.

(** [not v] is false exactly on the truthy values. *)
Definition truthy (v : pyval) : bool :=
  match v with
  | PNone => false
  | PBool b => b
  | PInt n => negb (Z.eqb n 0)
  | PFloat x => match x with Finite q => negb (Qeq_bool q 0) | _ => true end
  | PStr s => negb (String.eqb s "")
  | PList l => match l with [] => false | _ => true end
  | PDict d => match d with [] => false | _ => true end
  end.

(** Lookup in a dictionary: the entry of the key. *)
Fixpoint assoc (k : string) (d : list (string * pyval)) : option pyval :=
  match d with
  | [] => None
  | (k', v) :: d' => if String.eqb k k' then Some v else assoc k d'
  end.

(** [v[k]] for a string key [k]: a dictionary raises [KeyError] on a
    missing key; a list or a string wants an integer index; nothing else
    can be subscripted. *)
Definition getitem (v : pyval) (k : string) : res pyval :=
  match v with
  | PDict d => match assoc k d with Some x => Ok x | None => Err (KeyError k) end
  | _ => Err TypeError
  end.

(** [v.get(k, None)]: only a dictionary has the method. *)
Definition get (v : pyval) (k : string) : res pyval :=
  match v with
  | PDict d => Ok (match assoc k d with Some x => x | None => PNone end)
  | _ => Err AttributeError
  end.

(** The least magnitude that no longer rounds to a finite double: half
    an ulp above the largest one. *)
Definition float_limit : Z := 2 ^ 1024 - 2 ^ 970.

(** [n / d] for two integers: the correctly rounded quotient, and
    [OverflowError] when that is no finite double.  A finite quotient is
    given by its exact value; Python rounds it to the nearest double. *)
Definition int_truediv (n d : Z) : res pyfloat :=
  if Z.eqb d 0 then Err ZeroDivisionError
  else if Z.leb (float_limit * Z.abs d) (Z.abs n) then Err OverflowError
  else Ok (Finite (inject_Z n / inject_Z d)%Q).

(** [x / d] for a float and an integer: the integer is converted first,
    which overflows as above; the division itself never raises on a
    nonzero divisor. *)
Definition float_truediv (x : pyfloat) (d : Z) : res pyfloat :=
  if Z.leb float_limit (Z.abs d) then Err OverflowError
  else if Z.eqb d 0 then Err ZeroDivisionError
  else Ok (match x with
           | Finite q => Finite (q / inject_Z d)%Q
           | Infinity s => Infinity (xorb s (Z.ltb d 0))
           | NaN => NaN
           end).

(** [v / d] for an integer constant [d]: true division.  A [bool] is an
    [int] in Python. *)
Definition truediv (v : pyval) (d : Z) : res pyfloat :=
  match v with
  | PInt n => int_truediv n d
  | PBool b => int_truediv (if b then 1 else 0) d
  | PFloat x => float_truediv x d
  | _ => Err TypeError
  end.

(** What becomes of a coroutine that awaits [asyncio.sleep]. *)
Inductive slumber : Type :=
| Wakes
| Sleeps_forever
| Refuses.

(** [for x in v]: the items of a list, the keys of a dictionary, the
    characters of a string. *)
Fixpoint chars (s : string) : list pyval :=
  match s with
  | EmptyString => []
  | String c s' => PStr (String c EmptyString) :: chars s'
  end.

Definition iter (v : pyval) : res (list pyval) :=
  match v with
  | PList l => Ok l
  | PDict d => Ok (map (fun kv => PStr (fst kv)) d)
  | PStr s => Ok (chars s)
  | _ => Err TypeError
  end.

(** [v == s] for a string [s]. *)
Definition eq_str (v : pyval) (s : string) : bool :=
  match v with
  | PStr t => String.eqb t s
  | _ => false
  end.

(** Text whose characters are all ASCII: every byte is below 128. *)
Fixpoint is_ascii (s : string) : bool :=
  match s with
  | EmptyString => true
  | String c s' => (nat_of_ascii c <? 128)%nat && is_ascii s'
  end.

(** [str.upper] and [str.lower] as they act on ASCII text: the letters
    [a]-[z] and [A]-[Z] are exchanged, every other character is kept. *)
Definition upper_ascii (c : ascii) : ascii :=
  let n := nat_of_ascii c in
  if ((97 <=? n) && (n <=? 122))%nat then ascii_of_nat (n - 32) else c.

Definition lower_ascii (c : ascii) : ascii :=
  let n := nat_of_ascii c in
  if ((65 <=? n) && (n <=? 90))%nat then ascii_of_nat (n + 32) else c.

Fixpoint ascii_upper (s : string) : string :=
  match s with
  | EmptyString => EmptyString
  | String c s' => String (upper_ascii c) (ascii_upper s')
  end.

Fixpoint lower (s : string) : string :=
  match s with
  | EmptyString => EmptyString
  | String c s' => String (lower_ascii c) (lower s')
  end.

(** [s in l] for a list of strings. *)
Definition str_in (s : string) (l : list string) : bool :=
  existsb (String.eqb s) l.

(** The library functions the connector calls and does not define:
    [str.upper], [json.dumps], [urllib.parse.quote] and [asyncio.sleep].
    Of [str.upper], which follows the Unicode case mappings, what is used
    is its action on ASCII text.  Of [asyncio.sleep], what it does with
    not-a-number differs between versions of Python: it ends, it never
    ends, or it refuses the delay with [ValueError]. *)
Class Lib : Type := {
  upper : string -> string;
  upper_on_ascii :
    forall s : string, is_ascii s = true -> upper s = ascii_upper s;
  json_dumps : pyval -> string;
  quote : string -> string;
  sleep_nan : slumber
}.

(** [await sleep(delay)]: a delay that is zero or negative yields once
    and goes on; a finite delay ends; an infinite one never does. *)
Definition sleep `{Lib} (delay : pyfloat) : slumber :=
  match delay with
  | Finite _ => Wakes
  | Infinity true => Wakes
  | Infinity false => Sleeps_forever
  | NaN => sleep_nan
  end.

(** An instance to run the model with.  [quote] has its default safe
    set and acts on the bytes of the UTF-8 encoding, as [urllib] does.
    [json.dumps] has its default separators and escapes what is not
    printable ASCII; the infinities, not-a-number and a float of integral
    value below 10^16 are printed as [repr] prints them, a finite float
    with a fractional part is not (its [repr] is the shortest decimal
    that reads back as the same double) and is shown as a fraction.
    [upper] is [str.upper] on ASCII text; on other text [str.upper] does
    more.  [sleep] on not-a-number never ends, as in CPython 3.11. *)
Definition dquote : ascii := ascii_of_nat 34.
Definition backslash : ascii := ascii_of_nat 92.

Definition hex_lower (n : N) : ascii :=
  ascii_of_N (if (n <? 10)%N then 48 + n else 87 + n)%N.

(** [\uXXXX] for a code unit. *)
Definition u_unit (n : N) : string :=
  String backslash
    (String "u"
       (String (hex_lower (n / 4096 mod 16))
          (String (hex_lower (n / 256 mod 16))
             (String (hex_lower (n / 16 mod 16))
                (String (hex_lower (n mod 16)) EmptyString)))))%N.

(** A code point: one unit, or a surrogate pair beyond the basic plane. *)
Definition u_escape (cp : N) : string :=
  if (cp <? 65536)%N then u_unit cp
  else u_unit (55296 + (cp - 65536) / 1024)%N
       +:+ u_unit (56320 + (cp - 65536) mod 1024)%N.

Definition escape_ascii (c : ascii) : string :=
  let n := N_of_ascii c in
  if Ascii.eqb c dquote then String backslash (String dquote EmptyString)
  else if Ascii.eqb c backslash then String backslash (String backslash EmptyString)
  else if Ascii.eqb c "010"%char then String backslash "n"
  else if Ascii.eqb c "013"%char then String backslash "r"
  else if Ascii.eqb c "009"%char then String backslash "t"
  else if Ascii.eqb c "008"%char then String backslash "b"
  else if Ascii.eqb c "012"%char then String backslash "f"
  else if ((n <? 32) || (n =? 127))%N then u_unit n
  else String c EmptyString.

(** The escapes of a string, read as UTF-8: [pending] bytes of the
    current sequence are still to come and [cp] holds its bits so far. *)
Fixpoint escape_from (pending : nat) (cp : N) (s : string) : string :=
  match s with
  | EmptyString => EmptyString
  | String c s' =>
      let b := N_of_ascii c in
      match pending with
      | O =>
          if (b <? 128)%N then escape_ascii c +:+ escape_from 0 0 s'
          else if (b <? 224)%N then escape_from 1 (b mod 32)%N s'
          else if (b <? 240)%N then escape_from 2 (b mod 16)%N s'
          else escape_from 3 (b mod 8)%N s'
      | S O => u_escape (cp * 64 + b mod 64)%N +:+ escape_from 0 0 s'
      | S p => escape_from p (cp * 64 + b mod 64)%N s'
      end
  end.

Definition escape (s : string) : string := escape_from 0 0 s.

Definition quoted (s : string) : string :=
  String dquote (escape s) +:+ String dquote EmptyString.

Definition float_repr (x : pyfloat) : string :=
  match x with
  | Infinity false => "Infinity"
  | Infinity true => "-Infinity"
  | NaN => "NaN"
  | Finite q =>
      if Pos.eqb (Qden (Qred q)) 1 && Z.ltb (Z.abs (Qnum (Qred q))) (10 ^ 16)
      then pretty (Qnum (Qred q)) +:+ ".0"
      else pretty (Qnum (Qred q)) +:+ "/" +:+ pretty (Zpos (Qden (Qred q)))
  end.

Fixpoint dumps (v : pyval) : string :=
  match v with
  | PNone => "null"
  | PBool b => if b then "true" else "false"
  | PInt n => pretty n
  | PFloat x => float_repr x
  | PStr s => quoted s
  | PList l =>
      "[" +:+
      (fix items (l : list pyval) : string :=
         match l with
         | [] => ""
         | x :: [] => dumps x
         | x :: l' => dumps x +:+ ", " +:+ items l'
         end) l +:+ "]"
  | PDict d =>
      "{" +:+
      (fix entries (d : list (string * pyval)) : string :=
         match d with
         | [] => ""
         | (k, x) :: [] => quoted k +:+ ": " +:+ dumps x
         | (k, x) :: d' => quoted k +:+ ": " +:+ dumps x +:+ ", " +:+ entries d'
         end) d +:+ "}"
  end.

Definition hex_digit (n : nat) : ascii :=
  ascii_of_nat (if (n <? 10)%nat then 48 + n else 55 + n).

Definition unreserved (c : ascii) : bool :=
  let n := nat_of_ascii c in
  ((48 <=? n) && (n <=? 57) || (65 <=? n) && (n <=? 90)
   || (97 <=? n) && (n <=? 122))%nat
  || existsb (Ascii.eqb c) ["_"; "."; "-"; "~"; "/"]%char.

Fixpoint percent_quote (s : string) : string :=
  match s with
  | EmptyString => EmptyString
  | String c s' =>
      (if unreserved c then String c EmptyString
       else let n := nat_of_ascii c in
            String "%" (String (hex_digit (n / 16))
                          (String (hex_digit (n mod 16)) EmptyString)))
      +:+ percent_quote s'
  end.

Definition cpython : Lib := {|
  upper := ascii_upper;
  upper_on_ascii := fun s _ => eq_refl;
  json_dumps := dumps;
  quote := percent_quote;
  sleep_nan := Sleeps_forever
|}.

End Py.
Import Py.

(* ===================================================================== *)
(** ** The HTTP client and the event loop *)
(* ===================================================================== *)

Module Http.

(** What [client_session.request] is called with. *)
Record request : Type := Request {
  req_method : string;
  req_url : string;
  req_params : gmap string string;
  req_data : pyval;
  req_headers : gmap string string
}.

(** What the client yields: the status code and the two decodings of the
    body.  [resp_json] is [None] when [response.json()] raises. *)
Record response : Type := Response {
  status : Z;
  resp_text : string;
  resp_json : option pyval
}.

(** What the coroutine does to the world, one event at a time: it has a
    request issued, or it asks the event loop for a suspension. *)
Inductive event : Type :=
| Issued (rq : request)
| Slept (seconds : pyfloat).

(** The world outside the coroutine: the responses the server gives to
    the coming requests, in order; the requests issued so far; the
    suspensions asked of [asyncio.sleep] so far, in seconds; and the
    journal of both, in the order they happened. *)
Record world : Type := World {
  script : list response;
  sent : list request;
  slept : list pyfloat;
  journal : list event
}.

(** A coroutine run to its end returns, raises, or is still awaiting:
    a response that the server never gives, or the end of a suspension
    that has none. *)
Inductive outcome (A : Type) : Type :=
| Return (a : A)
| Raise (e : exc)
| Pending.
Arguments Return {A} a.
Arguments Raise {A} e.
Arguments Pending {A}.

Definition M (A : Type) : Type := world -> outcome A * world.

Definition ret {A} (a : A) : M A := fun w => (Return a, w).

Definition raise {A} (e : exc) : M A := fun w => (Raise e, w).

Definition bind {A B} (k : A -> M B) (m : M A) : M B :=
  fun w =>
    match m w with
    | (Return a, w') => k a w'
    | (Raise e, w') => (Raise e, w')
    | (Pending, w') => (Pending, w')
    end.

#[export] Instance M_ret : MRet M := @ret.
#[export] Instance M_bind : MBind M := @bind.

(** A pure operation inside a coroutine: its exception propagates. *)
Definition lift {A} (r : res A) : M A :=
  match r with
  | Ok a => ret a
  | Err e => raise e
  end.

End Http.
Import Http.


(* ===================================================================== *)
(** ** [class AsyncHTTPAPI(MatrixHttpApi)] *)
(* ===================================================================== *)

Module AsyncHTTPAPI.

Section Api.
Context `{Lib}.

(** The attributes [__init__] sets; [client_session] is the [world]. *)
Record session : Type := Session {
  base_url : string;
  token : option string;
  txn_id : Z;
  validate_cert : bool
}.

Definition init (base_url : string) (token : option string) : session :=
  Session base_url token 0 true.

(** [if not d: d = {}] for an optional dictionary argument. *)
Definition or_empty (d : option (gmap string string)) : gmap string string :=
  match d with
  | Some m => if decide (m = ∅) then ∅ else m
  | None => ∅
  end.

(** [if self.token]: [None] and the empty string count as no token. *)
Definition token_set (t : option string) : option string :=
  match t with
  | Some s => if String.eqb s "" then None else Some s
  | None => None
  end.

Definition supported_methods : list string := ["GET"; "PUT"; "DELETE"; "POST"].

(** Lines 41-60 of [_send]: everything before the loop.  The outcome is
    the request every attempt is going to issue, or the exception of the
    method check. *)
Definition prepare (self : session) (method path : string) (content : pyval)
    (query_params headers : option (gmap string string)) (api_path : string)
    : res request :=
  let content := if truthy content then content else PDict [] in
  let query_params := or_empty query_params in
  let headers := or_empty headers in
  let method := upper method in
  if negb (str_in method supported_methods) then
    Err (MatrixError ("Unsupported HTTP method: " +:+ method))
  else
    let headers :=
      match headers !! "Content-Type" with
      | None => <["Content-Type" := "application/json"]> headers
      | Some _ => headers
      end in
    let query_params :=
      match token_set (token self) with
      | Some t => <["access_token" := t]> query_params
      | None => query_params
      end in
    let endpoint := base_url self +:+ api_path +:+ path in
    let content :=
      if decide (headers !! "Content-Type" = Some "application/json")
      then PStr (json_dumps content)
      else content in
    Ok (Request method endpoint query_params content headers).

(** What one pass of the loop body decides: to await [sleep(seconds)],
    to return, or to raise. *)
Inductive verdict : Type :=
| Retry (seconds : pyfloat)
| Finish (result : pyval)
| Throw (e : exc).

(** Lines 70-77: the body of [async with request as response]. *)
Definition on_response (r : response) : verdict :=
  if Z.eqb (status r) 429 then
    match resp_json r with
    | None => Throw DecodeError
    | Some respjson =>
        match getitem respjson "retry_after_ms" with
        | Err e => Throw e
        | Ok ms =>
            match truediv ms 1000 with
            | Err e => Throw e
            | Ok seconds => Retry seconds
            end
        end
    end
  else if Z.ltb (status r) 200 || Z.leb 300 (status r) then
    Throw (MatrixRequestError (status r) (resp_text r))
  else
    match resp_json r with
    | None => Throw DecodeError
    | Some j => Finish j
    end.

(** Lines 62-77: [while True].  Each pass issues the request and takes
    the next response of the server; the recursion is on the responses
    still to come.  When the server gives none, the request stays issued
    and unanswered.  The loop goes round again only when the suspension
    it awaits ends. *)
Fixpoint send_loop (rq : request) (rs : list response)
    (log : list request) (naps : list pyfloat) (tr : list event)
    : outcome pyval * world :=
  match rs with
  | [] => (Pending, World [] (log ++ [rq]) naps (tr ++ [Issued rq]))
  | r :: rs' =>
      match on_response r with
      | Retry seconds =>
          let log := log ++ [rq] in
          let naps := naps ++ [seconds] in
          let tr := tr ++ [Issued rq; Slept seconds] in
          match sleep seconds with
          | Wakes => send_loop rq rs' log naps tr
          | Sleeps_forever => (Pending, World rs' log naps tr)
          | Refuses => (Raise ValueError, World rs' log naps tr)
          end
      | Finish j => (Return j, World rs' (log ++ [rq]) naps (tr ++ [Issued rq]))
      | Throw e => (Raise e, World rs' (log ++ [rq]) naps (tr ++ [Issued rq]))
      end
  end.

Definition _send (self : session) (method path : string) (content : pyval)
    (query_params headers : option (gmap string string)) (api_path : string)
    : M pyval :=
  fun w =>
    match prepare self method path content query_params headers api_path with
    | Err e => (Raise e, w)
    | Ok rq => send_loop rq (script w) (sent w) (slept w) (journal w)
    end.

Definition default_api_path : string := "/_matrix/client/r0".

(** [get_display_name]: query matrix for a user's display name. *)
Definition get_display_name (self : session) (user_id : string) : M pyval :=
  content ← _send self "GET" ("/profile/" +:+ user_id +:+ "/displayname")
              PNone None None default_api_path;
  lift (get content "displayname").

(** [set_display_name]: tell matrix to set a new display name; the
    answer of the server is dropped. *)
Definition set_display_name (self : session) (user_id display_name : string)
    : M pyval :=
  let content := PDict [("displayname", PStr display_name)] in
  _ ← _send self "PUT" ("/profile/" +:+ user_id +:+ "/displayname")
        content None None default_api_path;
  mret PNone.

(** [get_avatar_url]: query matrix for the URL of a user's avatar. *)
Definition get_avatar_url (self : session) (user_id : string) : M pyval :=
  content ← _send self "GET" ("/profile/" +:+ user_id +:+ "/avatar_url")
              PNone None None default_api_path;
  lift (get content "avatar_url").

(** [get_room_id]: the room id of an alias. *)
Definition get_room_id (self : session) (room_alias : string) : M pyval :=
  content ← _send self "GET" ("/directory/room/" +:+ quote room_alias)
              PNone None None "/_matrix/client/r0";
  lift (get content "room_id").

(** The loop of [get_room_displayname], lines 117-119; falling out of it
    the coroutine returns [None]. *)
Fixpoint find_member (members : list pyval) (user_id : string) : res pyval :=
  match members with
  | [] => Ok PNone
  | mem :: rest =>
      match getitem mem "sender" with
      | Err e => Err e
      | Ok sender =>
          if eq_str sender user_id then
            match getitem mem "content" with
            | Err e => Err e
            | Ok c => getitem c "displayname"
            end
          else find_member rest user_id
      end
  end.

(** [get_room_members] is inherited from [MatrixHttpApi]. *)
Variable get_room_members : session -> pyval -> M pyval.

Definition get_room_displayname (self : session) (room_id user_id : string)
    : M pyval :=
  room_id ← (if String.prefix "#" room_id
             then get_room_id self room_id
             else mret (PStr room_id));
  members ← get_room_members self room_id;
  members ← lift (getitem members "chunk");
  members ← lift (iter members);
  lift (find_member members user_id).

End Api.

End AsyncHTTPAPI.

(* ===================================================================== *)
(** ** The event bridge: [MatrixEventCreator.create_event] *)
(* ===================================================================== *)

Module MatrixEventCreator.

(** Modelled from the spec: the domain events of the host framework
    ([opsdroid.events]) are not among the sources.  The closed set of
    variants of the mapping table in section 4.2, each with its
    variant-specific fields. *)
Inductive variant : Type :=
| Message (text : pyval)
| EditedMessage (text edited_event : pyval)
| File (url : pyval)
| Image (url : pyval)
| RoomName (name : pyval)
| RoomDescription (description : pyval)
| Reaction (emoji linked_event : pyval).

(** Modelled from the spec: the fields every produced domain event
    carries ([opsdroid.events.Event] is not among the sources). *)
Record event : Type := Event {
  payload : variant;
  user : pyval;
  user_id : pyval;
  target : string;
  event_id : pyval;
  raw_event : pyval
}.

Section Bridge.

(** The two collaborators of the bridge: the display-name resolver, which
    may raise, and the media-URL resolver, which is pure. *)
Variable get_display_name : pyval -> res pyval.
Variable get_download_url : pyval -> pyval.

(** Modelled from the spec: [create_events.py] is not among the sources.
    The relation of an edit: [m.relates_to.rel_type = m.replace]. *)
Definition is_replace (content : pyval) : bool :=
  match getitem content "m.relates_to" with
  | Ok rel =>
      match getitem rel "rel_type" with
      | Ok t => eq_str t "m.replace"
      | Err _ => false
      end
  | Err _ => false
  end.

(** Modelled from the spec: [create_events.py] is not among the sources.
    The rows of the mapping table for [m.room.message], keyed by
    [content.msgtype]. *)
Definition room_message (content : pyval) : res (option variant) :=
  msgtype ← getitem content "msgtype";
  if eq_str msgtype "m.text" then
    if is_replace content then
      new_content ← getitem content "m.new_content";
      text ← getitem new_content "body";
      rel ← getitem content "m.relates_to";
      edited ← getitem rel "event_id";
      mret (Some (EditedMessage text edited))
    else
      text ← getitem content "body";
      mret (Some (Message text))
  else if eq_str msgtype "m.file" then
    url ← getitem content "url";
    mret (Some (File (get_download_url url)))
  else if eq_str msgtype "m.image" then
    url ← getitem content "url";
    mret (Some (Image (get_download_url url)))
  else mret None.

(** Modelled from the spec: [create_events.py] is not among the sources.
    The mapping table, keyed by [type]. *)
Definition translate (wire_event : pyval) : res (option variant) :=
  type ← getitem wire_event "type";
  if eq_str type "m.room.message" then
    content ← getitem wire_event "content";
    room_message content
  else if eq_str type "m.room.name" then
    content ← getitem wire_event "content";
    name ← getitem content "name";
    mret (Some (RoomName name))
  else if eq_str type "m.room.topic" then
    content ← getitem wire_event "content";
    topic ← getitem content "topic";
    mret (Some (RoomDescription topic))
  else if eq_str type "m.reaction" then
    content ← getitem wire_event "content";
    rel ← getitem content "m.relates_to";
    key ← getitem rel "key";
    linked ← getitem rel "event_id";
    mret (Some (Reaction key linked))
  else mret None.

(** Modelled from the spec: [create_events.py] is not among the sources.
    [create_event(wire_event, target)]: one domain event or none; the
    display name is resolved once, and only when the translation
    succeeds. *)
Definition create_event (wire_event : pyval) (target : string)
    : res (option event) :=
  v ← translate wire_event;
  match v with
  | None => mret None
  | Some v =>
      sender ← getitem wire_event "sender";
      event_id ← getitem wire_event "event_id";
      name ← get_display_name sender;
      mret (Some (Event v name sender target event_id wire_event))
  end.

End Bridge.

End MatrixEventCreator.

(* ===================================================================== *)
(** ** The base class and sample data *)
(* ===================================================================== *)

Module MatrixHttpApi.

(** [get_room_members] as the base class of the [matrix_client] library
    has it, running on the [_send] of the subclass.  The properties of
    [get_room_displayname] below hold for any implementation; this one
    serves to run it. *)
Definition get_room_members `{Lib} (self : AsyncHTTPAPI.session)
    (room_id : pyval) : M pyval :=
  match room_id with
  | PStr room_id =>
      AsyncHTTPAPI._send self "GET" ("/rooms/" +:+ quote room_id +:+ "/members")
        PNone None None AsyncHTTPAPI.default_api_path
  | _ => raise TypeError
  end.

End MatrixHttpApi.

Module Fixtures.

Definition api : AsyncHTTPAPI.session :=
  AsyncHTTPAPI.init "https://matrix.org" (Some "s3cret").

Definition answer (code : Z) (body : pyval) : response :=
  Response code (dumps body) (Some body).

(** The responses of the server. *)
Definition too_many_requests : response :=
  answer 429 (PDict [("errcode", PStr "M_LIMIT_EXCEEDED");
                     ("retry_after_ms", PInt 50)]).


Definition forbidden_body : pyval :=
  PDict [("errcode", PStr "M_FORBIDDEN")].

Definition accepted : response :=
  answer 200 (PDict [("event_id", PStr "$abc:matrix.org")]).

Definition room_found : response :=
  answer 200 (PDict [("room_id", PStr "!MeRdFpEonLoCwhoHeT:matrix.org")]).

Definition member (sender displayname : string) : pyval :=
  PDict [("type", PStr "m.room.member");
         ("sender", PStr sender);
         ("content", PDict [("membership", PStr "join");
                            ("displayname", PStr displayname)])].

Definition room_members : pyval :=
  PDict [("chunk", PList [member "@trinity:matrix.org" "Trinity";
                          member "@neo:matrix.org" "Neo";
                          member "@neo:matrix.org" "Mr Anderson"])].

(** [message_json] of the test suite. *)
Definition message_json : pyval :=
  PDict [("content", PDict [("body", PStr "I just did it manually.");
                            ("msgtype", PStr "m.text")]);
         ("event_id", PStr "$15573463541827394vczPd:matrix.org");
         ("origin_server_ts", PInt 1557346354253);
         ("room_id", PStr "!MeRdFpEonLoCwhoHeT:matrix.org");
         ("sender", PStr "@neo:matrix.org");
         ("type", PStr "m.room.message");
         ("unsigned", PDict [("age", PInt 48926251)]);
         ("user_id", PStr "@nso:matrix.org");
         ("age", PInt 48926251)].

(** The same event after [json["type"] = "wibble"]. *)
Definition wibble_json : pyval :=
  PDict [("content", PDict [("body", PStr "I just did it manually.");
                            ("msgtype", PStr "m.text")]);
         ("event_id", PStr "$15573463541827394vczPd:matrix.org");
         ("origin_server_ts", PInt 1557346354253);
         ("room_id", PStr "!MeRdFpEonLoCwhoHeT:matrix.org");
         ("sender", PStr "@neo:matrix.org");
         ("type", PStr "wibble");
         ("unsigned", PDict [("age", PInt 48926251)]);
         ("user_id", PStr "@nso:matrix.org");
         ("age", PInt 48926251)].

(** A message sent to a room, and the request it is sent with. *)
Definition send_message : M pyval :=
  AsyncHTTPAPI._send (H := cpython) api "put"
    "/rooms/!r:matrix.org/send/m.room.message/1"
    (PDict [("msgtype", PStr "m.text"); ("body", PStr "hello")])
    None None AsyncHTTPAPI.default_api_path.

Definition message_request : request :=
  Request "PUT"
    "https://matrix.org/_matrix/client/r0/rooms/!r:matrix.org/send/m.room.message/1"
    (<["access_token" := "s3cret"]> ∅)
    (PStr (dumps (PDict [("msgtype", PStr "m.text"); ("body", PStr "hello")])))
    (<["Content-Type" := "application/json"]> ∅).

(** More answers of the server. *)
Definition not_found : response :=
  answer 404 (PDict [("errcode", PStr "M_NOT_FOUND")]).

Definition garbled (code : Z) : response :=
  Response code "<html>bad gateway</html>" None.

Definition profile_name : response :=
  answer 200 (PDict [("displayname", PStr "Neo")]).

Definition profile_avatar : response :=
  answer 200 (PDict [("avatar_url", PStr "mxc://matrix.org/abc")]).

Definition empty_object : response := answer 200 (PDict []).

(** Rate limits that are no integer of ordinary size. *)
Definition too_many_forever : response :=
  answer 429 (PDict [("retry_after_ms", PFloat (Infinity false))]).

Definition too_many_digits : response :=
  answer 429 (PDict [("retry_after_ms", PInt (10 ^ 400))]).

Definition too_many_and_a_half : response :=
  answer 429 (PDict [("retry_after_ms", PFloat (Finite (101 # 2)))]).

Definition json_list : response := answer 200 (PList [PStr "Neo"]).

(** Member listings that are not of the documented shape. *)
Definition anonymous_entry : pyval :=
  PDict [("type", PStr "m.room.member");
         ("content", PDict [("membership", PStr "join")])].

Definition nameless_entry (sender : string) : pyval :=
  PDict [("type", PStr "m.room.member");
         ("sender", PStr sender);
         ("content", PDict [("membership", PStr "join")])].

(** A member listing that some server has ready, whatever the room. *)
Definition listing (members : pyval) (self : AsyncHTTPAPI.session)
    (room_id : pyval) : M pyval :=
  fun w => (Return members, w).

(** The collaborators as the test suite mocks them. *)
Definition get_nick (sender : pyval) : res pyval := Ok (PStr "Rabbit Hole").

Definition get_download_url (mxc : pyval) : pyval := PStr "mxc://aurl".

End Fixtures.

(* ===================================================================== *)
(** ** The vocabulary of the contract *)
(* ===================================================================== *)

Module Contract.

(** A response that rate-limits the call for [ms] milliseconds: status
    429 and a JSON body whose [retry_after_ms] is the integer [ms], of a
    size whose thousandth is still a double. *)
Definition rate_limited (r : response) (ms : Z) : Prop :=
  status r = 429 /\
  (exists body, resp_json r = Some body /\
                getitem body "retry_after_ms" = Ok (PInt ms)) /\
  Z.abs ms < float_limit * 1000.

(** [ms / 1000], in seconds. *)
Definition seconds (ms : Z) : pyfloat :=
  Finite (inject_Z ms / inject_Z 1000)%Q.

(** The journal of the rounds of a rate-limited call: per round the
    request, then the suspension. *)
Fixpoint rounds (rq : request) (naps : list pyfloat) : list event :=
  match naps with
  | [] => []
  | nap :: naps' => Issued rq :: Slept nap :: rounds rq naps'
  end.

(** A JSON body without the field [k]: an object that has no such key,
    or no object at all. *)
Definition lacks (body : pyval) (k : string) : Prop :=
  match body with
  | PDict d => assoc k d = None
  | _ => True
  end.

(** The exception a subscript by a string raises on such a body. *)
Definition lookup_error (body : pyval) (k : string) : exc :=
  match body with
  | PDict _ => KeyError k
  | _ => TypeError
  end.

(** The request body [_send] starts from: [content], or [{}] when it is
    falsy. *)
Definition body_of (content : pyval) : pyval :=
  if truthy content then content else PDict [].

(** [m] spells [M] up to the case of its ASCII letters. *)
Definition same_spelling (m M : string) : Prop := lower m = lower M.

(** An entry of a member listing sent by somebody else. *)
Definition other_member (user_id : string) (mem : pyval) : Prop :=
  exists sender, getitem mem "sender" = Ok sender /\
                 eq_str sender user_id = false.

(** An entry of a member listing sent by [user_id], with the display name
    [name] in its content. *)
Definition member_named (user_id : string) (name : pyval) (mem : pyval) : Prop :=
  exists sender content,
    getitem mem "sender" = Ok sender /\ eq_str sender user_id = true /\
    getitem mem "content" = Ok content /\
    getitem content "displayname" = Ok name.

(** The keys of the mapping table of the event bridge. *)
Definition recognized_types : list string :=
  ["m.room.message"; "m.room.name"; "m.room.topic"; "m.reaction"].

Definition recognized_msgtypes : list string :=
  ["m.text"; "m.file"; "m.image"].

(** [v] is none of the strings of [l]. *)
Definition none_of (v : pyval) (l : list string) : Prop :=
  forall s : string, In s l -> v <> PStr s.

(** A decoded JSON body that is an object. *)
Definition is_object (v : pyval) : bool :=
  match v with
  | PDict _ => true
  | _ => false
  end.

(** The values Python divides by an integer: [int], [bool] and
    [float]. *)
Definition is_number (v : pyval) : bool :=
  match v with
  | PInt _ | PBool _ | PFloat _ => true
  | _ => false
  end.

Section Listing.
Context `{Lib}.
Variable get_room_members :
  AsyncHTTPAPI.session -> pyval -> M pyval.

(** The request of a call that passes neither query parameters nor
    headers and leaves the API path at its default: the token, if any, is
    the only parameter, the content type is JSON, and the body is the
    JSON text of [content]. *)
Definition plain_request (self : AsyncHTTPAPI.session) (method path : string)
    (content : pyval) : request :=
  Request method
    (AsyncHTTPAPI.base_url self +:+ AsyncHTTPAPI.default_api_path +:+ path)
    (match AsyncHTTPAPI.token_set (AsyncHTTPAPI.token self) with
     | Some t => <["access_token" := t]> ∅
     | None => ∅
     end)
    (PStr (json_dumps content))
    (<["Content-Type" := "application/json"]> ∅).

(** From the world [w], the room [room_id] (an alias is resolved first)
    has the member listing [members], and the world is then [w']. *)
Definition listing_of (self : AsyncHTTPAPI.session) (room_id : string)
    (w : world) (members : pyval) (w' : world) : Prop :=
  exists (rid : pyval) (w1 : world),
    (if String.prefix "#" room_id
     then AsyncHTTPAPI.get_room_id self room_id
     else mret (PStr room_id)) w = (Return rid, w1) /\
    get_room_members self rid w1 = (Return members, w').

End Listing.

End Contract.
Import Contract.

(* ===================================================================== *)
(** ** Properties of the transport *)
(* ===================================================================== *)

Module TransportSpec.
Import AsyncHTTPAPI.

Section Transport.
Context `{Lib}.

Implicit Types (self : session) (rq : request) (r : response)
  (rs : list response) (log : list request) (naps : list pyfloat)
  (tr : list event).

Lemma or_empty_default (d : option (gmap string string)) :
  or_empty d = default ∅ d.
Proof.
  destruct d as [m|]; simpl; [|reflexivity].
  destruct (decide (m = ∅)); congruence.
Qed.

Lemma int_truediv_1000 (ms : Z) :
  Z.abs ms < float_limit * 1000 -> int_truediv ms 1000 = Ok (seconds ms).
Proof.
  intros Hb. unfold int_truediv.
  change (Z.eqb 1000 0) with false. change (Z.abs 1000) with 1000.
  rewrite (proj2 (Z.leb_gt _ _) Hb). reflexivity.
Qed.

Lemma on_response_rate_limited r ms :
  rate_limited r ms -> on_response r = Retry (seconds ms).
Proof.
  intros [Hs [(body & Hj & Hg) Hb]]. unfold on_response.
  rewrite Hs, Hj, Hg. cbn [Z.eqb Pos.eqb truediv].
  rewrite (int_truediv_1000 _ Hb). reflexivity.
Qed.

Lemma on_response_success r j :
  200 <= status r < 300 -> resp_json r = Some j -> on_response r = Finish j.
Proof.
  intros Hs Hj. unfold on_response.
  destruct (Z.eqb_spec (status r) 429) as [E|_]; [lia|].
  destruct (Z.ltb_spec (status r) 200); [lia|].
  destruct (Z.leb_spec 300 (status r)); [lia|].
  simpl. rewrite Hj. reflexivity.
Qed.

Lemma on_response_failure r :
  status r < 200 \/ 300 <= status r -> status r <> 429 ->
  on_response r = Throw (MatrixRequestError (status r) (resp_text r)).
Proof.
  intros Hs Hn. unfold on_response.
  destruct (Z.eqb_spec (status r) 429) as [E|_]; [contradiction|].
  destruct (Z.ltb_spec (status r) 200); [reflexivity|].
  destruct (Z.leb_spec 300 (status r)); [reflexivity|lia].
Qed.

(** The loop absorbs a run of rate-limiting responses: one attempt and
    one suspension each, and it goes on with what follows. *)
Lemma send_loop_retries rq (limited : list response) (waits : list Z) rs
    log naps tr :
  Forall2 rate_limited limited waits ->
  send_loop rq (limited ++ rs) log naps tr =
  send_loop rq rs (log ++ replicate (length limited) rq)
            (naps ++ map seconds waits)
            (tr ++ rounds rq (map seconds waits)).
Proof.
  intros HF. revert log naps tr.
  induction HF as [|r ms limited waits Hr _ IH]; intros log naps tr.
  - simpl. rewrite !app_nil_r. reflexivity.
  - cbn [app send_loop length replicate map rounds].
    rewrite (on_response_rate_limited _ _ Hr). cbn [seconds sleep].
    rewrite IH, <- !app_assoc. reflexivity.
Qed.

(** Whatever the server does, the loop issues the request at least once,
    and nothing but that request. *)
Lemma send_loop_sent rq rs log naps tr :
  exists k,
    sent (snd (send_loop rq rs log naps tr)) = log ++ replicate (S k) rq.
Proof.
  revert log naps tr. induction rs as [|r rs IH]; intros log naps tr; simpl.
  - exists 0%nat. reflexivity.
  - destruct (on_response r) as [nap|j|e].
    + destruct (sleep nap).
      * destruct (IH (log ++ [rq]) (naps ++ [nap])
                    (tr ++ [Issued rq; Slept nap])) as [k Hk].
        exists (S k). rewrite Hk, <- app_assoc. reflexivity.
      * exists 0%nat. reflexivity.
      * exists 0%nat. reflexivity.
    + exists 0%nat. reflexivity.
    + exists 0%nat. reflexivity.
Qed.


(** C2. A first response whose status is outside [200, 300) and is not
    429 makes the call raise [MatrixRequestError] with that status code
    and the raw text of the body, after one attempt and no suspension. *)
Theorem C2_request_error self method path content query_params headers
    api_path rq r rs log naps tr :
  prepare self method path content query_params headers api_path = Ok rq ->
  status r < 200 \/ 300 <= status r ->
  status r <> 429 ->
  _send self method path content query_params headers api_path
        (World (r :: rs) log naps tr)
  = (Raise (MatrixRequestError (status r) (resp_text r)),
     World rs (log ++ [rq]) naps (tr ++ [Issued rq])).
Proof.
  intros Hp Hs Hn. unfold _send. rewrite Hp. simpl.
  rewrite (on_response_failure _ Hs Hn). reflexivity.
Qed.

(** *** The method check *)

Lemma str_in_In (x : string) (l : list string) :
  str_in x l = true <-> In x l.
Proof.
  unfold str_in. rewrite existsb_exists. split.
  - intros (y & Hy & E). apply String.eqb_eq in E. subst. exact Hy.
  - intros Hx. exists x. split; [exact Hx|apply String.eqb_refl].
Qed.

Lemma upper_lower_ascii (c : ascii) :
  upper_ascii (lower_ascii c) = upper_ascii c.
Proof. destruct c as [[] [] [] [] [] [] [] []]; reflexivity. Qed.

Lemma upper_lower (s : string) : ascii_upper (lower s) = ascii_upper s.
Proof.
  induction s as [|c s IH]; simpl; [reflexivity|].
  rewrite upper_lower_ascii, IH. reflexivity.
Qed.

Lemma lower_ascii_below_128 (c : ascii) :
  (nat_of_ascii (lower_ascii c) <? 128)%nat = (nat_of_ascii c <? 128)%nat.
Proof. destruct c as [[] [] [] [] [] [] [] []]; reflexivity. Qed.

Lemma is_ascii_lower (s : string) : is_ascii (lower s) = is_ascii s.
Proof.
  induction s as [|c s IH]; simpl; [reflexivity|].
  rewrite lower_ascii_below_128, IH. reflexivity.
Qed.

Lemma is_ascii_supported (M : string) :
  In M supported_methods -> is_ascii M = true.
Proof.
  simpl. intros [<-|[<-|[<-|[<-|[]]]]]; reflexivity.
Qed.

(** A spelling of a supported method is ASCII text, so [str.upper] acts
    on it letter by letter. *)
Lemma upper_supported (M : string) : In M supported_methods -> upper M = M.
Proof.
  intros HM. rewrite (upper_on_ascii M (is_ascii_supported M HM)).
  revert HM. simpl. intros [<-|[<-|[<-|[<-|[]]]]]; reflexivity.
Qed.

Lemma upper_same_spelling (m M : string) :
  In M supported_methods -> same_spelling m M -> upper m = M.
Proof.
  intros HM E.
  assert (Ha : is_ascii m = true).
  { rewrite <- is_ascii_lower, E, is_ascii_lower.
    apply is_ascii_supported, HM. }
  rewrite (upper_on_ascii m Ha), <- (upper_lower m), E, upper_lower.
  rewrite <- (upper_on_ascii M (is_ascii_supported M HM)).
  apply upper_supported, HM.
Qed.

(** The request a call with a supported method prepares. *)
Lemma prepare_supported self method path content query_params headers api_path :
  In (upper method) supported_methods ->
  let hd := default ∅ headers in
  let hd' := match hd !! "Content-Type" with
             | None => <["Content-Type" := "application/json"]> hd
             | Some _ => hd
             end in
  prepare self method path content query_params headers api_path =
  Ok (Request (upper method) (base_url self +:+ api_path +:+ path)
        (match token_set (token self) with
         | Some t => <["access_token" := t]> (default ∅ query_params)
         | None => default ∅ query_params
         end)
        (if decide (hd' !! "Content-Type" = Some "application/json")
         then PStr (json_dumps (body_of content)) else body_of content)
        hd').
Proof.
  intros Hm. apply str_in_In in Hm. unfold prepare.
  rewrite Hm, !or_empty_default. reflexivity.
Qed.

(** The loop never raises the exception of the method check. *)
Lemma truediv_not_MatrixError (v : pyval) (d : Z) msg :
  truediv v d <> Err (MatrixError msg).
Proof.
  destruct v as [| b | n | x | | |]; simpl; try discriminate;
    unfold int_truediv, float_truediv;
    repeat (destruct (Z.eqb _ _) || destruct (Z.leb _ _)); discriminate.
Qed.

Lemma on_response_not_MatrixError r msg :
  on_response r <> Throw (MatrixError msg).
Proof.
  unfold on_response.
  destruct (Z.eqb (status r) 429).
  - destruct (resp_json r) as [body|]; [|discriminate].
    destruct body as [| | | | | |d]; simpl; try discriminate.
    destruct (assoc "retry_after_ms" d) as [ms|]; [|discriminate].
    pose proof (truediv_not_MatrixError ms 1000 msg) as Hd.
    destruct (truediv ms 1000); [discriminate|congruence].
  - destruct (_ || _); [discriminate|].
    destruct (resp_json r); discriminate.
Qed.

Lemma send_loop_not_MatrixError rq rs log naps tr msg :
  fst (send_loop rq rs log naps tr) <> Raise (MatrixError msg).
Proof.
  revert log naps tr. induction rs as [|r rs IH]; intros log naps tr; simpl.
  - discriminate.
  - pose proof (on_response_not_MatrixError r msg) as Hr.
    destruct (on_response r) as [nap|j|e]; simpl.
    + destruct (sleep nap); [apply IH|discriminate|discriminate].
    + discriminate.
    + congruence.
Qed.

(** C3, as the code has it. A method whose upper-cased form, the value
    of [method.upper()] whatever [str.upper] does to it, is outside
    GET, PUT, DELETE, POST makes the call raise [MatrixError] naming
    that upper-cased form, with the world untouched: no request is
    issued, no response consumed. *)
Theorem C3_unsupported_method self method path content query_params headers
    api_path (w : world) :
  ~ In (upper method) supported_methods ->
  _send self method path content query_params headers api_path w
  = (Raise (MatrixError ("Unsupported HTTP method: " +:+ upper method)), w).
Proof.
  intros Hm. unfold _send, prepare.
  destruct (str_in (upper method) supported_methods) eqn:E.
  - apply str_in_In in E. contradiction.
  - reflexivity.
Qed.


(** C5. On a session with a token, a call with a supported method
    prepares one request and issues nothing else.  Its query parameters
    are the caller's with [access_token] set to the token; its headers
    are the caller's, but for [Content-Type], which is
    [application/json] when the caller gave none; and when its
    [Content-Type] is [application/json] its body is the JSON text of the
    content. *)
Theorem C5_token_and_content_type self (t : string) method path content
    query_params headers api_path :
  token self = Some t ->
  t <> "" ->
  In (upper method) supported_methods ->
  exists rq,
    prepare self method path content query_params headers api_path = Ok rq /\
    req_params rq = <["access_token" := t]> (default ∅ query_params) /\
    (forall k : string, k <> "Content-Type" ->
       req_headers rq !! k = default ∅ headers !! k) /\
    (default ∅ headers !! "Content-Type" = None ->
       req_headers rq !! "Content-Type" = Some "application/json") /\
    (req_headers rq !! "Content-Type" = Some "application/json" ->
       req_data rq = PStr (json_dumps (body_of content))) /\
    (forall w : world, exists k : nat,
       sent (snd (_send self method path content query_params headers
                        api_path w))
       = sent w ++ replicate (S k) rq).
Proof.
  intros Ht Hne Hm.
  pose proof (prepare_supported self method path content query_params
                headers api_path Hm) as Hp.
  cbv zeta in Hp.
  assert (Hts : token_set (token self) = Some t).
  { rewrite Ht. simpl. destruct (String.eqb_spec t ""); congruence. }
  rewrite Hts in Hp. eexists. split; [exact Hp|].
  cbn [req_params req_headers req_data].
  split; [reflexivity|]. split; [|split; [|split]].
  - intros k Hk.
    destruct (default ∅ headers !! "Content-Type"); [reflexivity|].
    apply lookup_insert_ne. congruence.
  - intros Hn. rewrite Hn. apply lookup_insert_eq.
  - intros Hct.
    destruct (decide _) as [_|Hd]; [reflexivity|contradiction].
  - intros w. unfold _send. rewrite Hp. apply send_loop_sent.
Qed.

(** C9. Any spelling of a supported method that differs from it in the
    case of letters only passes the method check: the call prepares a
    request with the upper-case method, issues it, and does not raise
    [MatrixError]. *)
Theorem C9_method_case_insensitive self (m M : string) path content
    query_params headers api_path :
  In M supported_methods ->
  same_spelling m M ->
  exists rq,
    prepare self m path content query_params headers api_path = Ok rq /\
    req_method rq = M /\
    forall w : world,
      (exists k : nat,
         sent (snd (_send self m path content query_params headers api_path w))
         = sent w ++ replicate (S k) rq) /\
      (forall msg : string,
         fst (_send self m path content query_params headers api_path w)
         <> Raise (MatrixError msg)).
Proof.
  intros HM Hsp.
  pose proof (upper_same_spelling m M HM Hsp) as Hu.
  assert (Hm : In (upper m) supported_methods) by (rewrite Hu; exact HM).
  pose proof (prepare_supported self m path content query_params
                headers api_path Hm) as Hp.
  cbv zeta in Hp. eexists. split; [exact Hp|].
  split; [exact Hu|].
  intros w. unfold _send. rewrite Hp. split.
  - apply send_loop_sent.
  - intros msg. apply send_loop_not_MatrixError.
Qed.

(** *** The display name of a room member *)

Variable get_room_members : session -> pyval -> M pyval.

Lemma find_member_skip (user_id : string) (before rest : list pyval) :
  Forall (other_member user_id) before ->
  find_member (before ++ rest) user_id = find_member rest user_id.
Proof.
  induction 1 as [|mem before (sender & Hs & Hne) _ IH]; simpl.
  - reflexivity.
  - rewrite Hs, Hne. exact IH.
Qed.

Lemma find_member_first (user_id : string) (name mem : pyval)
    (before after : list pyval) :
  Forall (other_member user_id) before ->
  member_named user_id name mem ->
  find_member (before ++ mem :: after) user_id = Ok name.
Proof.
  intros Hb (sender & content & Hs & He & Hc & Hn).
  rewrite (find_member_skip _ _ _ Hb). simpl.
  rewrite Hs, He, Hc. exact Hn.
Qed.

Lemma find_member_none (user_id : string) (chunk : list pyval) :
  Forall (other_member user_id) chunk ->
  find_member chunk user_id = Ok PNone.
Proof.
  intros Hc. rewrite <- (app_nil_r chunk).
  rewrite (find_member_skip _ _ _ Hc). reflexivity.
Qed.

(** The coroutine, once the listing is there. *)
Lemma get_room_displayname_listing self (room_id user_id : string)
    (w w' : world) (members : pyval) (chunk : list pyval) :
  listing_of get_room_members self room_id w members w' ->
  getitem members "chunk" = Ok (PList chunk) ->
  get_room_displayname get_room_members self room_id user_id w
  = lift (find_member chunk user_id) w'.
Proof.
  intros (rid & w1 & Hr & Hm) Hc. unfold get_room_displayname.
  unfold mbind, M_bind, bind. rewrite Hr, Hm, Hc. reflexivity.
Qed.

(** C8. When the listing's [chunk] holds an entry of the queried user
    with a display name, and every entry before it is of another sender,
    the lookup returns the display name of that entry: the first match
    decides, whatever follows it. *)
Theorem C8_displayname_first_match self (room_id user_id : string)
    (w w' : world) (members name mem : pyval) (before after : list pyval) :
  listing_of get_room_members self room_id w members w' ->
  getitem members "chunk" = Ok (PList (before ++ mem :: after)) ->
  Forall (other_member user_id) before ->
  member_named user_id name mem ->
  get_room_displayname get_room_members self room_id user_id w
  = (Return name, w').
Proof.
  intros Hl Hc Hb Hm.
  rewrite (get_room_displayname_listing _ _ _ _ _ _ _ Hl Hc).
  rewrite (find_member_first _ _ _ _ _ Hb Hm). reflexivity.
Qed.

(** C10. When every entry of the listing's [chunk] is of another sender,
    the lookup returns [None]; it does not raise. *)
Theorem C10_displayname_no_match self (room_id user_id : string)
    (w w' : world) (members : pyval) (chunk : list pyval) :
  listing_of get_room_members self room_id w members w' ->
  getitem members "chunk" = Ok (PList chunk) ->
  Forall (other_member user_id) chunk ->
  get_room_displayname get_room_members self room_id user_id w
  = (Return PNone, w').
Proof.
  intros Hl Hc Hn.
  rewrite (get_room_displayname_listing _ _ _ _ _ _ _ Hl Hc).
  rewrite (find_member_none _ _ Hn). reflexivity.
Qed.

End Transport.

(** *** The properties at work, on the sample data *)

Import Fixtures.

Lemma prepare_message :
  prepare (H := cpython) api "put" "/rooms/!r:matrix.org/send/m.room.message/1"
          (PDict [("msgtype", PStr "m.text"); ("body", PStr "hello")])
          None None default_api_path
  = Ok message_request.
Proof. vm_compute. reflexivity. Defined.


(** A 403 with a JSON body: the error carries 403 and the text. *)
Lemma C2_witness :
  send_message (World [answer 403 forbidden_body; accepted] [] [] [])
  = (Raise (MatrixRequestError 403 (dumps forbidden_body)),
     World [accepted] [message_request] [] [Issued message_request]).
Proof.
  refine (C2_request_error (H := cpython) _ _ _ _ _ _ _ message_request
            (answer 403 forbidden_body) [accepted] [] [] []
            prepare_message _ _).
  - right. simpl. lia.
  - simpl. lia.
Defined.

(** PATCH is refused, and the waiting response is not consumed. *)
Lemma C3_witness :
  _send (H := cpython) api "patch" "/sync" PNone None None default_api_path
        (World [accepted] [] [] [])
  = (Raise (MatrixError "Unsupported HTTP method: PATCH"),
     World [accepted] [] [] []).
Proof.
  refine (C3_unsupported_method (H := cpython) api "patch" "/sync" PNone
            None None default_api_path (World [accepted] [] [] []) _).
  simpl. intros [E|[E|[E|[E|[]]]]]; discriminate E.
Defined.

(** The method [get] is not one of GET, PUT, DELETE, POST, and yet the
    call goes out to the server and returns its answer. *)
Lemma C3_counterexample :
  ~ In "get" supported_methods /\
  exists rq : request,
    req_method rq = "GET" /\
    _send (H := cpython) api "get" "/sync" PNone None None default_api_path
          (World [accepted] [] [] [])
    = (Return (PDict [("event_id", PStr "$abc:matrix.org")]),
       World [] [rq] [] [Issued rq]).
Proof.
  split.
  - simpl. intros [E|[E|[E|[E|[]]]]]; discriminate E.
  - eexists. split; [|vm_compute; reflexivity]. reflexivity.
Qed.


Lemma C5_witness :
  exists rq : request,
    prepare (H := cpython) api "put"
            "/rooms/!r:matrix.org/send/m.room.message/1"
            (PDict [("msgtype", PStr "m.text"); ("body", PStr "hello")])
            None None default_api_path = Ok rq /\
    req_params rq = <["access_token" := "s3cret"]> ∅ /\
    (forall k : string, k <> "Content-Type" ->
       req_headers rq !! k = (∅ : gmap string string) !! k) /\
    ((∅ : gmap string string) !! "Content-Type" = None ->
       req_headers rq !! "Content-Type" = Some "application/json") /\
    (req_headers rq !! "Content-Type" = Some "application/json" ->
       req_data rq
       = PStr (dumps (PDict [("msgtype", PStr "m.text");
                             ("body", PStr "hello")]))) /\
    (forall w : world, exists k : nat,
       sent (snd (send_message w)) = sent w ++ replicate (S k) rq).
Proof.
  refine (C5_token_and_content_type (H := cpython) api "s3cret" "put"
            "/rooms/!r:matrix.org/send/m.room.message/1"
            (PDict [("msgtype", PStr "m.text"); ("body", PStr "hello")])
            None None default_api_path _ _ _).
  - reflexivity.
  - discriminate.
  - simpl. right. left. reflexivity.
Defined.

Lemma C9_witness :
  exists rq : request,
    prepare (H := cpython) api "Post" "/join/!r:matrix.org" PNone None None
            default_api_path = Ok rq /\
    req_method rq = "POST" /\
    forall w : world,
      (exists k : nat,
         sent (snd (_send (H := cpython) api "Post" "/join/!r:matrix.org"
                          PNone None None default_api_path w))
         = sent w ++ replicate (S k) rq) /\
      (forall msg : string,
         fst (_send (H := cpython) api "Post" "/join/!r:matrix.org"
                    PNone None None default_api_path w)
         <> Raise (MatrixError msg)).
Proof.
  refine (C9_method_case_insensitive (H := cpython) api "Post" "POST"
            "/join/!r:matrix.org" PNone None None default_api_path _ _).
  - simpl. do 3 right. left. reflexivity.
  - reflexivity.
Defined.

(** An alias is resolved, the listing fetched, and the first of the two
    entries of the user gives the name. *)
Lemma C8_witness :
  exists w' : world,
    get_room_displayname (H := cpython) (MatrixHttpApi.get_room_members (H := cpython)) api
      "#room:matrix.org" "@neo:matrix.org"
      (World [room_found; answer 200 room_members] [] [] [])
    = (Return (PStr "Neo"), w').
Proof.
  eexists.
  refine (C8_displayname_first_match (H := cpython)
            (MatrixHttpApi.get_room_members (H := cpython)) api
            "#room:matrix.org" "@neo:matrix.org" _ _ room_members
            (PStr "Neo") (member "@neo:matrix.org" "Neo")
            [member "@trinity:matrix.org" "Trinity"]
            [member "@neo:matrix.org" "Mr Anderson"] _ _ _ _).
  - eexists. eexists. split; vm_compute; reflexivity.
  - reflexivity.
  - constructor; [|constructor]. eexists. split; reflexivity.
  - eexists. eexists. repeat split; reflexivity.
Defined.

Lemma C10_witness :
  exists w' : world,
    get_room_displayname (H := cpython) (MatrixHttpApi.get_room_members (H := cpython)) api
      "!MeRdFpEonLoCwhoHeT:matrix.org" "@morpheus:matrix.org"
      (World [answer 200 room_members] [] [] [])
    = (Return PNone, w').
Proof.
  eexists.
  refine (C10_displayname_no_match (H := cpython)
            (MatrixHttpApi.get_room_members (H := cpython)) api
            "!MeRdFpEonLoCwhoHeT:matrix.org" "@morpheus:matrix.org" _ _
            room_members _ _ _ _).
  - eexists. eexists. split; vm_compute; reflexivity.
  - reflexivity.
  - repeat constructor; eexists; split; reflexivity.
Defined.

End TransportSpec.

(* ===================================================================== *)
(** ** Properties of the event bridge *)
(* ===================================================================== *)

Module EventBridgeSpec.
Import MatrixEventCreator.

Section Bridge.
Variable get_display_name : pyval -> res pyval.
Variable get_download_url : pyval -> pyval.

Lemma eq_str_none_of (v : pyval) (l : list string) (s : string) :
  none_of v l -> In s l -> eq_str v s = false.
Proof.
  intros Hn Hs. specialize (Hn s Hs).
  destruct v as [| | | |t| |]; simpl; try reflexivity.
  destruct (String.eqb_spec t s) as [->|]; [contradiction|reflexivity].
Qed.

Lemma translate_unknown_type (wire_event type : pyval) :
  getitem wire_event "type" = Ok type ->
  none_of type recognized_types ->
  translate get_download_url wire_event = Ok None.
Proof.
  intros Ht Hn. unfold translate. rewrite Ht. simpl.
  rewrite !(eq_str_none_of _ _ _ Hn) by (simpl; tauto). reflexivity.
Qed.

Lemma translate_unknown_msgtype (wire_event content msgtype : pyval) :
  getitem wire_event "type" = Ok (PStr "m.room.message") ->
  getitem wire_event "content" = Ok content ->
  getitem content "msgtype" = Ok msgtype ->
  none_of msgtype recognized_msgtypes ->
  translate get_download_url wire_event = Ok None.
Proof.
  intros Ht Hc Hm Hn. unfold translate. rewrite Ht. simpl.
  rewrite Hc. simpl. unfold room_message. rewrite Hm. simpl.
  rewrite !(eq_str_none_of _ _ _ Hn) by (simpl; tauto). reflexivity.
Qed.

(** C6. A wire event of type [m.room.message] and msgtype [m.text]
    without a replace relation, with a body, a sender and an event id,
    and a sender whose display name resolves, becomes a Message: its text
    is [content.body], its user the resolved name, its user id the
    sender, its target the argument, its event id the event's, and its
    raw event the wire event itself. *)
Theorem C6_create_message (wire_event content text sender event_id name : pyval)
    (target : string) :
  getitem wire_event "type" = Ok (PStr "m.room.message") ->
  getitem wire_event "content" = Ok content ->
  getitem content "msgtype" = Ok (PStr "m.text") ->
  is_replace content = false ->
  getitem content "body" = Ok text ->
  getitem wire_event "sender" = Ok sender ->
  getitem wire_event "event_id" = Ok event_id ->
  get_display_name sender = Ok name ->
  create_event get_display_name get_download_url wire_event target
  = Ok (Some (Event (Message text) name sender target event_id wire_event)).
Proof.
  intros Ht Hc Hm Hr Hb Hs He Hn.
  unfold create_event, translate. rewrite Ht. simpl. rewrite Hc. simpl.
  unfold room_message. rewrite Hm. simpl. rewrite Hr, Hb. simpl.
  rewrite Hs. simpl. rewrite He. simpl. rewrite Hn. reflexivity.
Qed.

(** C7. A wire event whose type is none of the recognized ones, or whose
    type is [m.room.message] and whose msgtype is none of the recognized
    ones, gives none, as a result: no exception, and whatever the
    display-name resolver would do. *)
Theorem C7_unrecognized_is_none (wire_event : pyval) (target : string) :
  (exists type : pyval,
     getitem wire_event "type" = Ok type /\
     none_of type recognized_types) \/
  (getitem wire_event "type" = Ok (PStr "m.room.message") /\
   exists content msgtype : pyval,
     getitem wire_event "content" = Ok content /\
     getitem content "msgtype" = Ok msgtype /\
     none_of msgtype recognized_msgtypes) ->
  create_event get_display_name get_download_url wire_event target = Ok None.
Proof.
  intros [(type & Ht & Hn)|(Ht & content & msgtype & Hc & Hm & Hn)];
    unfold create_event.
  - rewrite (translate_unknown_type _ _ Ht Hn). reflexivity.
  - rewrite (translate_unknown_msgtype _ _ _ Ht Hc Hm Hn). reflexivity.
Qed.

End Bridge.

Import Fixtures.

(** [test_create_message] of the test suite. *)
Lemma C6_witness :
  create_event get_nick get_download_url message_json "hello"
  = Ok (Some (Event (Message (PStr "I just did it manually."))
                (PStr "Rabbit Hole") (PStr "@neo:matrix.org") "hello"
                (PStr "$15573463541827394vczPd:matrix.org") message_json)).
Proof.
  refine (C6_create_message get_nick get_download_url message_json
            _ _ _ _ _ "hello" _ _ _ _ _ _ _ _); reflexivity.
Defined.

(** [test_unsupported_type] of the test suite, with a resolver that
    raises. *)
Lemma C7_witness :
  create_event (fun _ => Err TypeError) get_download_url wibble_json "hello"
  = Ok None.
Proof.
  refine (C7_unrecognized_is_none (fun _ => Err TypeError) get_download_url
            wibble_json "hello" _).
  left. exists (PStr "wibble"). split; [reflexivity|].
  intros s Hs E. injection E as <-.
  simpl in Hs. destruct Hs as [E|[E|[E|[E|[]]]]]; discriminate E.
Defined.

End EventBridgeSpec.

(* ===================================================================== *)
(** ** Further properties of the transport *)
(* ===================================================================== *)

Module TransportExtra.
Import AsyncHTTPAPI TransportSpec.

Section More.
Context `{Lib}.

Implicit Types (self : session) (rq : request) (r : response)
  (rs : list response) (log : list request) (naps : list pyfloat)
  (tr : list event).

Lemma sleep_not_wakes (nap : pyfloat) :
  sleep nap <> Wakes -> nap = Infinity false \/ nap = NaN.
Proof.
  destruct nap as [q|[]|]; simpl; intros Hn;
    [contradiction|contradiction|left; reflexivity|right; reflexivity].
Qed.

(** The books of the loop.  From any responses it consumes [used] and
    leaves [rest]; it asks for the suspensions [naps'].  Either the last
    thing it did was to have the request issued, or it is in a suspension
    that has not ended. *)
Lemma send_loop_accounting rq rs log naps tr :
  exists (naps' : list pyfloat) (used rest : list response),
    let R := send_loop rq rs log naps tr in
    rs = used ++ rest /\
    script (snd R) = rest /\
    slept (snd R) = naps ++ naps' /\
    ((sent (snd R) = log ++ replicate (S (length naps')) rq /\
      journal (snd R) = tr ++ rounds rq naps' ++ [Issued rq] /\
      (length used = S (length naps') /\ fst R <> Pending \/
       length used = length naps' /\ rest = [] /\ fst R = Pending))
     \/
     (sent (snd R) = log ++ replicate (length naps') rq /\
      journal (snd R) = tr ++ rounds rq naps' /\
      length used = length naps' /\
      (exists pre nap,
         naps' = pre ++ [nap] /\ (nap = Infinity false \/ nap = NaN)) /\
      (fst R = Pending \/ fst R = Raise ValueError))).
Proof.
  revert log naps tr. induction rs as [|r rs IH]; intros log naps tr.
  - exists [], [], []. cbn. rewrite app_nil_r.
    repeat split. left. repeat split. right. repeat split.
  - cbn [send_loop]. destruct (on_response r) as [nap|j|e].
    + cbv zeta. destruct (sleep nap) eqn:Hnap.
      * destruct (IH (log ++ [rq]) (naps ++ [nap])
                    (tr ++ [Issued rq; Slept nap]))
          as (naps' & used & rest & Hrs & Hsc & Hsl & Hcase).
        cbv zeta in Hrs, Hsc, Hsl, Hcase.
        exists (nap :: naps'), (r :: used), rest. cbv zeta.
        split; [rewrite Hrs; reflexivity|]. split; [exact Hsc|].
        split; [rewrite Hsl, <- app_assoc; reflexivity|].
        destruct Hcase as [(Hse & Hj & Hl)|(Hse & Hj & Hl & Hlast & Ho)].
        -- left. split; [rewrite Hse, <- app_assoc; reflexivity|].
           split; [rewrite Hj, <- !app_assoc; reflexivity|].
           cbn [length]. destruct Hl as [[Hl Ho]|(Hl & Hr & Ho)].
           ++ left. split; [congruence|exact Ho].
           ++ right. repeat split; [congruence|exact Hr|exact Ho].
        -- right. split; [rewrite Hse, <- app_assoc; reflexivity|].
           split; [rewrite Hj, <- !app_assoc; reflexivity|].
           split; [cbn [length]; congruence|]. split; [|exact Ho].
           destruct Hlast as (pre & last & -> & Hw).
           exists (nap :: pre), last. split; [reflexivity|exact Hw].
      * exists [nap], [r], rs. cbn.
        repeat split. right. repeat split.
        -- exists [], nap. split; [reflexivity|].
           apply sleep_not_wakes. congruence.
        -- left. reflexivity.
      * exists [nap], [r], rs. cbn.
        repeat split. right. repeat split.
        -- exists [], nap. split; [reflexivity|].
           apply sleep_not_wakes. congruence.
        -- right. reflexivity.
    + exists [], [r], rs. cbn. rewrite app_nil_r.
      repeat split. left. repeat split. left. split; [reflexivity|discriminate].
    + exists [], [r], rs. cbn. rewrite app_nil_r.
      repeat split. left. repeat split. left. split; [reflexivity|discriminate].
Qed.

(** X1. Whatever the server answers, a call with a supported method has
    no request issued but its own, and what it does is a strict
    alternation: request, suspension, request, suspension, ...  It takes
    the responses in order from the front, one per answered request.
    Either its last act was a request ([k] suspensions, [k + 1]
    requests; then it returned or raised on the response to that
    request, or the server had no response left), or its last act was
    to ask for a suspension of infinite or not-a-number delay ([k]
    suspensions, [k] requests, every one of them answered), in which it
    stays or which is refused with [ValueError].  Earlier entries of the
    logs are kept. *)
Theorem X1_send_accounting self method path content query_params headers
    api_path rq (w : world) :
  prepare self method path content query_params headers api_path = Ok rq ->
  exists (naps' : list pyfloat) (used : list response),
    let R := _send self method path content query_params headers api_path w in
    script w = used ++ script (snd R) /\
    slept (snd R) = slept w ++ naps' /\
    ((sent (snd R) = sent w ++ replicate (S (length naps')) rq /\
      journal (snd R) = journal w ++ rounds rq naps' ++ [Issued rq] /\
      (length used = S (length naps') /\ fst R <> Pending \/
       length used = length naps' /\ script (snd R) = [] /\ fst R = Pending))
     \/
     (sent (snd R) = sent w ++ replicate (length naps') rq /\
      journal (snd R) = journal w ++ rounds rq naps' /\
      length used = length naps' /\
      (exists pre nap,
         naps' = pre ++ [nap] /\ (nap = Infinity false \/ nap = NaN)) /\
      (fst R = Pending \/ fst R = Raise ValueError))).
Proof.
  intros Hp. unfold _send. rewrite Hp.
  destruct (send_loop_accounting rq (script w) (sent w) (slept w) (journal w))
    as (naps' & used & rest & Hrs & Hsc & Hsl & Hcase).
  cbv zeta in Hrs, Hsc, Hsl, Hcase.
  exists naps', used. cbv zeta. rewrite Hsc.
  split; [exact Hrs|]. split; [exact Hsl|]. exact Hcase.
Qed.

(** X2. Rate limiting does not hide a failure: after any number [n] of
    rate-limiting responses (429 with an integer [retry_after_ms] whose
    thousandth is a double), a response outside [200, 300) that is not a
    429 raises [MatrixRequestError] with its status and text, after
    [n + 1] attempts and [n] suspensions. *)
Theorem X2_rate_limit_then_error self method path content query_params
    headers api_path rq (limited : list response) (waits : list Z)
    (bad : response) rs log naps tr :
  prepare self method path content query_params headers api_path = Ok rq ->
  Forall2 rate_limited limited waits ->
  status bad < 200 \/ 300 <= status bad ->
  status bad <> 429 ->
  _send self method path content query_params headers api_path
        (World (limited ++ bad :: rs) log naps tr)
  = (Raise (MatrixRequestError (status bad) (resp_text bad)),
     World rs (log ++ replicate (S (length limited)) rq)
           (naps ++ map seconds waits)
           (tr ++ rounds rq (map seconds waits) ++ [Issued rq])).
Proof.
  intros Hp HF Hs Hn. unfold _send. rewrite Hp.
  cbn [script sent slept journal].
  rewrite (send_loop_retries _ _ _ _ _ _ _ HF). cbn [send_loop].
  rewrite (on_response_failure _ Hs Hn).
  rewrite replicate_S_end, !app_assoc. reflexivity.
Qed.

(** X3. A 2xx or a 429 whose body does not decode as JSON raises the
    decoding error after one attempt: no suspension, no second
    attempt. *)
Theorem X3_undecodable_body self method path content query_params headers
    api_path rq r rs log naps tr :
  prepare self method path content query_params headers api_path = Ok rq ->
  status r = 429 \/ 200 <= status r < 300 ->
  resp_json r = None ->
  _send self method path content query_params headers api_path
        (World (r :: rs) log naps tr)
  = (Raise DecodeError, World rs (log ++ [rq]) naps (tr ++ [Issued rq])).
Proof.
  intros Hp Hs Hj. unfold _send. rewrite Hp. simpl.
  unfold on_response. rewrite Hj.
  destruct (Z.eqb_spec (status r) 429) as [E|E]; [reflexivity|].
  destruct Hs as [Hs|Hs]; [contradiction|].
  destruct (Z.ltb_spec (status r) 200); [lia|].
  destruct (Z.leb_spec 300 (status r)); [lia|]. reflexivity.
Qed.

(** X4. A 429 whose [retry_after_ms] is there but is not a number (a
    string, [null], a list, an object) raises [TypeError] at the
    division: one attempt, no suspension. *)
Theorem X4_retry_after_not_a_number self method path content query_params
    headers api_path rq r (body v : pyval) rs log naps tr :
  prepare self method path content query_params headers api_path = Ok rq ->
  status r = 429 ->
  resp_json r = Some body ->
  getitem body "retry_after_ms" = Ok v ->
  is_number v = false ->
  _send self method path content query_params headers api_path
        (World (r :: rs) log naps tr)
  = (Raise TypeError, World rs (log ++ [rq]) naps (tr ++ [Issued rq])).
Proof.
  intros Hp Hs Hj Hg Hv. unfold _send. rewrite Hp. simpl.
  unfold on_response. rewrite Hs, Hj, Hg. simpl.
  destruct v; simpl in *; try discriminate; reflexivity.
Qed.

(** X5. Without a token ([None] or the empty string) the query
    parameters go out as the caller gave them: no [access_token] is
    added. *)
Theorem X5_no_token_no_parameter self method path content query_params
    headers api_path :
  token self = None \/ token self = Some "" ->
  In (upper method) supported_methods ->
  exists rq,
    prepare self method path content query_params headers api_path = Ok rq /\
    req_params rq = default ∅ query_params /\
    (forall w : world, exists k : nat,
       sent (snd (_send self method path content query_params headers
                        api_path w))
       = sent w ++ replicate (S k) rq).
Proof.
  intros Ht Hm.
  pose proof (prepare_supported self method path content query_params
                headers api_path Hm) as Hp.
  cbv zeta in Hp.
  assert (Hts : token_set (token self) = None).
  { destruct Ht as [-> | ->]; reflexivity. }
  rewrite Hts in Hp. eexists. split; [exact Hp|].
  split; [reflexivity|].
  intros w. unfold _send. rewrite Hp. apply send_loop_sent.
Qed.

(** X6. A [Content-Type] the caller supplies is never replaced: the
    headers go out as given, and the body ([content], or [{}] when
    [content] is falsy) is turned into JSON text only when that content
    type is exactly [application/json]; under any other value that body
    goes out as the value it is, not as text. *)
Theorem X6_content_type_kept self method path content query_params
    (hd : gmap string string) (ct : string) api_path :
  In (upper method) supported_methods ->
  hd !! "Content-Type" = Some ct ->
  exists rq,
    prepare self method path content query_params (Some hd) api_path = Ok rq /\
    req_headers rq = hd /\
    req_data rq = (if String.eqb ct "application/json"
                   then PStr (json_dumps (body_of content))
                   else body_of content).
Proof.
  intros Hm Hct.
  pose proof (prepare_supported self method path content query_params
                (Some hd) api_path Hm) as Hp.
  cbv zeta in Hp. simpl in Hp. rewrite Hct in Hp. rewrite Hct in Hp.
  destruct (String.eqb_spec ct "application/json") as [->|Hne];
    destruct (decide _) as [Hd|Hd] in Hp; try congruence;
    eexists; (split; [exact Hp|]); split; reflexivity.
Qed.

(** X7. Falsy content ([None], an empty list or object, the empty
    string, zero, [False]) is replaced by the empty object: under the
    default content type the body is the JSON text of [{}], also for an
    empty list. *)
Theorem X7_falsy_content_is_empty_object self method path content
    query_params headers api_path :
  In (upper method) supported_methods ->
  truthy content = false ->
  default ∅ headers !! "Content-Type" = None ->
  exists rq,
    prepare self method path content query_params headers api_path = Ok rq /\
    req_data rq = PStr (json_dumps (PDict [])).
Proof.
  intros Hm Hf Hct.
  pose proof (prepare_supported self method path content query_params
                headers api_path Hm) as Hp.
  cbv zeta in Hp. rewrite Hct in Hp.
  eexists. split; [exact Hp|]. cbn [req_data].
  rewrite lookup_insert_eq.
  rewrite decide_True by reflexivity.
  unfold body_of. rewrite Hf. reflexivity.
Qed.

(** *** The calls built on [_send] *)

Lemma prepare_plain self (M path : string) (content : pyval) :
  In M supported_methods ->
  prepare self M path content None None default_api_path
  = Ok (plain_request self M path (body_of content)).
Proof.
  intros HM.
  assert (Hu : In (upper M) supported_methods)
    by (rewrite (upper_supported M HM); exact HM).
  rewrite (prepare_supported self M path content None None
             default_api_path Hu).
  cbv zeta. simpl default. rewrite lookup_empty, lookup_insert_eq.
  rewrite decide_True by reflexivity.
  rewrite (upper_supported M HM). unfold plain_request.
  destruct (token_set (token self)); reflexivity.
Qed.

Lemma send_plain self (M path : string) (content : pyval) (w : world) :
  In M supported_methods ->
  _send self M path content None None default_api_path w
  = send_loop (plain_request self M path (body_of content))
              (script w) (sent w) (slept w) (journal w).
Proof.
  intros HM. unfold _send. rewrite (prepare_plain _ _ _ _ HM). reflexivity.
Qed.

Lemma In_GET : In "GET" supported_methods.
Proof. simpl. left. reflexivity. Qed.

Lemma In_PUT : In "PUT" supported_methods.
Proof. simpl. right. left. reflexivity. Qed.

Lemma send_loop_success rq (ok : response) (j : pyval) rs log naps tr :
  200 <= status ok < 300 ->
  resp_json ok = Some j ->
  send_loop rq (ok :: rs) log naps tr
  = (Return j, World rs (log ++ [rq]) naps (tr ++ [Issued rq])).
Proof.
  intros Hs Hj. simpl. rewrite (on_response_success _ _ Hs Hj). reflexivity.
Qed.

Lemma send_loop_limited_then_error rq (limited : list response)
    (waits : list Z) (bad : response) rs log naps tr :
  Forall2 rate_limited limited waits ->
  status bad < 200 \/ 300 <= status bad ->
  status bad <> 429 ->
  send_loop rq (limited ++ bad :: rs) log naps tr
  = (Raise (MatrixRequestError (status bad) (resp_text bad)),
     World rs (log ++ replicate (S (length limited)) rq)
           (naps ++ map seconds waits)
           (tr ++ rounds rq (map seconds waits) ++ [Issued rq])).
Proof.
  intros HF Hs Hn.
  rewrite (send_loop_retries _ _ _ _ _ _ _ HF). cbn [send_loop].
  rewrite (on_response_failure _ Hs Hn).
  rewrite replicate_S_end, !app_assoc. reflexivity.
Qed.

(** X8. On a 2xx whose body is a JSON object, [get_display_name] and
    [get_avatar_url] return the field [displayname], respectively
    [avatar_url], of the object, and [None] when the object has no such
    field.  Each has issued one GET whose path holds the user id as
    given, not percent-quoted, and whose body is the JSON text of
    [{}]. *)
Theorem X8_profile_lookup self (user_id : string) (ok : response)
    (d : list (string * pyval)) rs log naps tr :
  200 <= status ok < 300 ->
  resp_json ok = Some (PDict d) ->
  get_display_name self user_id (World (ok :: rs) log naps tr)
  = (Return (default PNone (assoc "displayname" d)),
     World rs
       (log ++ [plain_request self "GET"
                  ("/profile/" +:+ user_id +:+ "/displayname") (PDict [])])
       naps
       (tr ++ [Issued (plain_request self "GET"
                  ("/profile/" +:+ user_id +:+ "/displayname") (PDict []))]))
  /\
  get_avatar_url self user_id (World (ok :: rs) log naps tr)
  = (Return (default PNone (assoc "avatar_url" d)),
     World rs
       (log ++ [plain_request self "GET"
                  ("/profile/" +:+ user_id +:+ "/avatar_url") (PDict [])])
       naps
       (tr ++ [Issued (plain_request self "GET"
                  ("/profile/" +:+ user_id +:+ "/avatar_url") (PDict []))])).
Proof.
  intros Hs Hj. split.
  - unfold get_display_name, mbind, M_bind, bind.
    rewrite (send_plain _ _ _ _ _ In_GET). cbn [script sent slept journal].
    rewrite (send_loop_success _ _ _ _ _ _ _ Hs Hj). reflexivity.
  - unfold get_avatar_url, mbind, M_bind, bind.
    rewrite (send_plain _ _ _ _ _ In_GET). cbn [script sent slept journal].
    rewrite (send_loop_success _ _ _ _ _ _ _ Hs Hj). reflexivity.
Qed.

(** X9. On a 2xx whose JSON body is not an object (a list, a string, a
    number, [null]), [get_display_name], [get_avatar_url] and
    [get_room_id] raise [AttributeError]: the body has no [get].  Each
    of them has had its one request issued and has consumed the
    response. *)
Theorem X9_body_not_an_object self (name : string) (ok : response)
    (j : pyval) rs log naps tr :
  200 <= status ok < 300 ->
  resp_json ok = Some j ->
  is_object j = false ->
  let after (path : string) :=
    let rq := plain_request self "GET" path (PDict []) in
    World rs (log ++ [rq]) naps (tr ++ [Issued rq]) in
  get_display_name self name (World (ok :: rs) log naps tr)
  = (Raise AttributeError,
     after ("/profile/" +:+ name +:+ "/displayname")) /\
  get_avatar_url self name (World (ok :: rs) log naps tr)
  = (Raise AttributeError,
     after ("/profile/" +:+ name +:+ "/avatar_url")) /\
  get_room_id self name (World (ok :: rs) log naps tr)
  = (Raise AttributeError,
     after ("/directory/room/" +:+ quote name)).
Proof.
  intros Hs Hj Hno. cbv zeta.
  unfold get_display_name, get_avatar_url, get_room_id, mbind, M_bind, bind.
  rewrite !(send_plain _ _ _ _ _ In_GET). cbn [script sent slept journal].
  rewrite !(send_loop_success _ _ _ _ _ _ _ Hs Hj).
  destruct j; simpl in Hno; try discriminate; repeat split; reflexivity.
Qed.

(** X10. [set_display_name] issues one PUT whose body is the JSON text
    of [{"displayname": display_name}], and on a 2xx with a JSON body it
    returns [None], whatever that body is. *)
Theorem X10_set_display_name self (user_id display_name : string)
    (ok : response) (j : pyval) rs log naps tr :
  200 <= status ok < 300 ->
  resp_json ok = Some j ->
  set_display_name self user_id display_name (World (ok :: rs) log naps tr)
  = (Return PNone,
     World rs
       (log ++ [plain_request self "PUT"
                  ("/profile/" +:+ user_id +:+ "/displayname")
                  (PDict [("displayname", PStr display_name)])])
       naps
       (tr ++ [Issued (plain_request self "PUT"
                  ("/profile/" +:+ user_id +:+ "/displayname")
                  (PDict [("displayname", PStr display_name)]))])).
Proof.
  intros Hs Hj. unfold set_display_name, mbind, M_bind, bind.
  rewrite (send_plain _ _ _ _ _ In_PUT). cbn [script sent slept journal].
  rewrite (send_loop_success _ _ _ _ _ _ _ Hs Hj). reflexivity.
Qed.

(** X11. On a 2xx whose body is a JSON object, [get_room_id] returns its
    field [room_id], or [None] when there is none, after one GET on
    [/directory/room/] followed by the percent-quoted alias. *)
Theorem X11_get_room_id self (room_alias : string) (ok : response)
    (d : list (string * pyval)) rs log naps tr :
  200 <= status ok < 300 ->
  resp_json ok = Some (PDict d) ->
  get_room_id self room_alias (World (ok :: rs) log naps tr)
  = (Return (default PNone (assoc "room_id" d)),
     World rs
       (log ++ [plain_request self "GET"
                  ("/directory/room/" +:+ quote room_alias) (PDict [])])
       naps
       (tr ++ [Issued (plain_request self "GET"
                  ("/directory/room/" +:+ quote room_alias) (PDict []))])).
Proof.
  intros Hs Hj. unfold get_room_id, mbind, M_bind, bind.
  rewrite (send_plain _ _ _ _ _ In_GET). cbn [script sent slept journal].
  rewrite (send_loop_success _ _ _ _ _ _ _ Hs Hj). reflexivity.
Qed.

(** X12. None of the four calls catches a failure of the transport:
    after any number of rate-limiting responses (429 with an integer
    [retry_after_ms] whose thousandth is a double), a response outside
    [200, 300) that is not a 429 makes each of them raise
    [MatrixRequestError] with the status and text of that response. *)
Theorem X12_calls_propagate_request_error self (name value : string)
    (limited : list response) (waits : list Z) (bad : response) rs log naps
    tr :
  Forall2 rate_limited limited waits ->
  status bad < 200 \/ 300 <= status bad ->
  status bad <> 429 ->
  let w := World (limited ++ bad :: rs) log naps tr in
  let e := MatrixRequestError (status bad) (resp_text bad) in
  fst (get_display_name self name w) = Raise e /\
  fst (set_display_name self name value w) = Raise e /\
  fst (get_avatar_url self name w) = Raise e /\
  fst (get_room_id self name w) = Raise e.
Proof.
  intros HF Hs Hn. cbv zeta.
  unfold get_display_name, set_display_name, get_avatar_url, get_room_id,
    mbind, M_bind, bind.
  rewrite !(send_plain _ _ _ _ _ In_GET), (send_plain _ _ _ _ _ In_PUT).
  cbn [script sent slept journal].
  rewrite !(send_loop_limited_then_error _ _ _ _ _ _ _ _ HF Hs Hn).
  repeat split; reflexivity.
Qed.

(** *** Rate limits that are no integer of ordinary size *)

Lemma rounds_app rq (a b : list pyfloat) :
  rounds rq (a ++ b) = rounds rq a ++ rounds rq b.
Proof.
  induction a as [|nap a IH]; simpl; [reflexivity|].
  rewrite IH. reflexivity.
Qed.

Lemma float_truediv_1000 (x : pyfloat) :
  float_truediv x 1000
  = Ok (match x with
        | Finite q => Finite (q / inject_Z 1000)%Q
        | Infinity s => Infinity s
        | NaN => NaN
        end).
Proof.
  unfold float_truediv. change (Z.abs 1000) with 1000.
  replace (Z.leb float_limit 1000) with false by (vm_compute; reflexivity).
  destruct x as [q|[]|]; reflexivity.
Qed.

(** X18. A 429 whose [retry_after_ms] is an integer so large that its
    thousandth is beyond the doubles (from 1000 * (2^1024 - 2^970) on,
    either sign) raises [OverflowError] at the division: one attempt, no
    suspension. *)
Theorem X18_retry_after_too_large self method path content query_params
    headers api_path rq r (body : pyval) (ms : Z) rs log naps tr :
  prepare self method path content query_params headers api_path = Ok rq ->
  status r = 429 ->
  resp_json r = Some body ->
  getitem body "retry_after_ms" = Ok (PInt ms) ->
  float_limit * 1000 <= Z.abs ms ->
  _send self method path content query_params headers api_path
        (World (r :: rs) log naps tr)
  = (Raise OverflowError, World rs (log ++ [rq]) naps (tr ++ [Issued rq])).
Proof.
  intros Hp Hs Hj Hg Hb. unfold _send. rewrite Hp.
  cbn [script sent slept journal send_loop].
  unfold on_response. rewrite Hs, Hj, Hg. cbn [Z.eqb Pos.eqb truediv].
  unfold int_truediv.
  change (Z.eqb 1000 0) with false. change (Z.abs 1000) with 1000.
  rewrite (proj2 (Z.leb_le _ _) Hb). reflexivity.
Qed.

(** X19. A 429 whose [retry_after_ms] is the float infinity (what
    [json.loads] makes of 1e400) puts the call to sleep for good: after
    the rate-limited rounds before it, the request is issued once more,
    the infinite suspension is asked for, and then nothing: no further
    request, the later responses unread, nothing returned or raised. *)
Theorem X19_infinite_retry_after self method path content query_params
    headers api_path rq (limited : list response) (waits : list Z) r
    (body : pyval) rs log naps tr :
  prepare self method path content query_params headers api_path = Ok rq ->
  Forall2 rate_limited limited waits ->
  status r = 429 ->
  resp_json r = Some body ->
  getitem body "retry_after_ms" = Ok (PFloat (Infinity false)) ->
  _send self method path content query_params headers api_path
        (World (limited ++ r :: rs) log naps tr)
  = (Pending,
     World rs (log ++ replicate (S (length limited)) rq)
           (naps ++ map seconds waits ++ [Infinity false])
           (tr ++ rounds rq (map seconds waits ++ [Infinity false]))).
Proof.
  intros Hp HF Hs Hj Hg. unfold _send. rewrite Hp.
  cbn [script sent slept journal].
  rewrite (send_loop_retries _ _ _ _ _ _ _ HF). cbn [send_loop].
  unfold on_response. rewrite Hs, Hj, Hg. cbn [Z.eqb Pos.eqb truediv].
  rewrite float_truediv_1000. cbn [sleep].
  rewrite replicate_S_end, rounds_app, <- !app_assoc. reflexivity.
Qed.

(** X20. A 429 whose [retry_after_ms] is a finite float is a rate limit
    like an integer one: the call suspends for its thousandth and goes
    round again; on a 2xx with a JSON body it returns that body after
    two attempts. *)
Theorem X20_fractional_retry_after self method path content query_params
    headers api_path rq r (body : pyval) (q : Q) (ok : response) (j : pyval)
    rs log naps tr :
  prepare self method path content query_params headers api_path = Ok rq ->
  status r = 429 ->
  resp_json r = Some body ->
  getitem body "retry_after_ms" = Ok (PFloat (Finite q)) ->
  200 <= status ok < 300 ->
  resp_json ok = Some j ->
  _send self method path content query_params headers api_path
        (World (r :: ok :: rs) log naps tr)
  = (Return j,
     World rs (log ++ [rq; rq])
           (naps ++ [Finite (q / inject_Z 1000)%Q])
           (tr ++ [Issued rq; Slept (Finite (q / inject_Z 1000)%Q);
                   Issued rq])).
Proof.
  intros Hp Hs Hj Hg Hs' Hj'. unfold _send. rewrite Hp.
  cbn [script sent slept journal send_loop].
  unfold on_response at 1. rewrite Hs, Hj, Hg. cbn [Z.eqb Pos.eqb truediv].
  rewrite float_truediv_1000. cbn [sleep send_loop].
  rewrite (on_response_success _ _ Hs' Hj'), <- !app_assoc. reflexivity.
Qed.

(** *** The display name of a room member, off the documented shape *)

Variable get_room_members : session -> pyval -> M pyval.

Lemma getitem_lacks (v : pyval) (k : string) :
  lacks v k -> getitem v k = Err (lookup_error v k).
Proof.
  destruct v as [| | | | | |d]; simpl; try reflexivity.
  intros ->. reflexivity.
Qed.

(** X13. An entry without [sender] that comes before any entry of the
    queried user makes the lookup raise the error of the subscript
    ([KeyError] on an object), also when an entry of the user
    follows. *)
Theorem X13_entry_without_sender self (room_id user_id : string)
    (w w' : world) (members mem : pyval) (before after : list pyval) :
  listing_of get_room_members self room_id w members w' ->
  getitem members "chunk" = Ok (PList (before ++ mem :: after)) ->
  Forall (other_member user_id) before ->
  lacks mem "sender" ->
  get_room_displayname get_room_members self room_id user_id w
  = (Raise (lookup_error mem "sender"), w').
Proof.
  intros Hl Hc Hb Hm.
  rewrite (get_room_displayname_listing _ _ _ _ _ _ _ _ Hl Hc).
  rewrite (find_member_skip _ _ _ Hb). simpl.
  rewrite (getitem_lacks _ _ Hm). reflexivity.
Qed.

(** X14. The first entry of the queried user decides alone: when its
    content has no [displayname], the lookup raises the error of the
    subscript and does not go on to later entries of the user. *)
Theorem X14_first_match_without_displayname self (room_id user_id : string)
    (w w' : world) (members mem sender content : pyval)
    (before after : list pyval) :
  listing_of get_room_members self room_id w members w' ->
  getitem members "chunk" = Ok (PList (before ++ mem :: after)) ->
  Forall (other_member user_id) before ->
  getitem mem "sender" = Ok sender ->
  eq_str sender user_id = true ->
  getitem mem "content" = Ok content ->
  lacks content "displayname" ->
  get_room_displayname get_room_members self room_id user_id w
  = (Raise (lookup_error content "displayname"), w').
Proof.
  intros Hl Hc Hb Hs He Hct Hd.
  rewrite (get_room_displayname_listing _ _ _ _ _ _ _ _ Hl Hc).
  rewrite (find_member_skip _ _ _ Hb). simpl.
  rewrite Hs, He, Hct, (getitem_lacks _ _ Hd). reflexivity.
Qed.

(** X15. A member listing without [chunk] makes the lookup raise the
    error of the subscript, after the listing has been fetched. *)
Theorem X15_listing_without_chunk self (room_id user_id : string)
    (w w' : world) (members : pyval) :
  listing_of get_room_members self room_id w members w' ->
  lacks members "chunk" ->
  get_room_displayname get_room_members self room_id user_id w
  = (Raise (lookup_error members "chunk"), w').
Proof.
  intros (rid & w1 & Hr & Hm) Hc. unfold get_room_displayname.
  unfold mbind, M_bind, bind. rewrite Hr, Hm, (getitem_lacks _ _ Hc).
  reflexivity.
Qed.

(** X16. When the room is given by an alias ([#...]) and the alias
    lookup fails with a status outside [200, 300) that is not 429, the
    lookup raises that [MatrixRequestError] after the one request of the
    alias lookup; the member listing is not asked for. *)
Theorem X16_alias_lookup_fails self (room_id user_id : string)
    (bad : response) rs log naps tr :
  String.prefix "#" room_id = true ->
  status bad < 200 \/ 300 <= status bad ->
  status bad <> 429 ->
  get_room_displayname get_room_members self room_id user_id
    (World (bad :: rs) log naps tr)
  = (Raise (MatrixRequestError (status bad) (resp_text bad)),
     World rs
       (log ++ [plain_request self "GET"
                  ("/directory/room/" +:+ quote room_id) (PDict [])])
       naps
       (tr ++ [Issued (plain_request self "GET"
                  ("/directory/room/" +:+ quote room_id) (PDict []))])).
Proof.
  intros Hp Hs Hn. unfold get_room_displayname. rewrite Hp.
  unfold get_room_id, mbind, M_bind, bind.
  rewrite (send_plain _ _ _ _ _ In_GET). cbn [script sent slept journal].
  rewrite (send_loop_limited_then_error _ [] [] bad rs log naps tr
             (List.Forall2_nil _) Hs Hn).
  simpl. rewrite app_nil_r. reflexivity.
Qed.

(** X17. A room given by an alias ([#...]) is resolved first, by one
    GET: on a 2xx with a JSON object the member listing is asked for the
    [room_id] of that object (for [None] when it has none), in the world
    after that request, and the entries of its [chunk] decide the
    result. *)
Theorem X17_alias_resolved_first self (room_id user_id : string)
    (ok : response) (d : list (string * pyval)) rs log naps tr
    (members : pyval) (chunk : list pyval) (w' : world) :
  String.prefix "#" room_id = true ->
  200 <= status ok < 300 ->
  resp_json ok = Some (PDict d) ->
  get_room_members self (default PNone (assoc "room_id" d))
    (World rs
       (log ++ [plain_request self "GET"
                  ("/directory/room/" +:+ quote room_id) (PDict [])])
       naps
       (tr ++ [Issued (plain_request self "GET"
                  ("/directory/room/" +:+ quote room_id) (PDict []))]))
  = (Return members, w') ->
  getitem members "chunk" = Ok (PList chunk) ->
  get_room_displayname get_room_members self room_id user_id
    (World (ok :: rs) log naps tr)
  = lift (find_member chunk user_id) w'.
Proof.
  intros Hp Hs Hj Hm Hc.
  apply (get_room_displayname_listing _ _ _ _ _ _ members); [|exact Hc].
  exists (default PNone (assoc "room_id" d)).
  eexists. split; [|exact Hm]. rewrite Hp.
  unfold get_room_id, mbind, M_bind, bind.
  rewrite (send_plain _ _ _ _ _ In_GET). cbn [script sent slept journal].
  rewrite (send_loop_success _ _ _ _ _ _ _ Hs Hj). reflexivity.
Qed.

End More.

(** *** The further properties at work, on the sample data *)

Import Fixtures.

Lemma limited_once : Forall2 rate_limited [too_many_requests] [50].
Proof.
  constructor; [|constructor].
  split; [reflexivity|]. split; [|vm_compute; reflexivity].
  eexists. split; reflexivity.
Defined.

(** A rate limit of 50 ms, then an infinite one, then an answer that is
    never read. *)
Lemma X1_witness :
  exists (naps' : list pyfloat) (used : list response),
    let R := send_message
               (World [too_many_requests; too_many_forever; accepted]
                  [] [] []) in
    [too_many_requests; too_many_forever; accepted]
    = used ++ script (snd R) /\
    slept (snd R) = [] ++ naps' /\
    ((sent (snd R) = [] ++ replicate (S (length naps')) message_request /\
      journal (snd R) = [] ++ rounds message_request naps'
                           ++ [Issued message_request] /\
      (length used = S (length naps') /\ fst R <> Pending \/
       length used = length naps' /\ script (snd R) = [] /\ fst R = Pending))
     \/
     (sent (snd R) = [] ++ replicate (length naps') message_request /\
      journal (snd R) = [] ++ rounds message_request naps' /\
      length used = length naps' /\
      (exists pre nap,
         naps' = pre ++ [nap] /\ (nap = Infinity false \/ nap = NaN)) /\
      (fst R = Pending \/ fst R = Raise ValueError))).
Proof.
  exact (X1_send_accounting (H := cpython) api "put"
           "/rooms/!r:matrix.org/send/m.room.message/1"
           (PDict [("msgtype", PStr "m.text"); ("body", PStr "hello")])
           None None default_api_path message_request
           (World [too_many_requests; too_many_forever; accepted] [] [] [])
           prepare_message).
Defined.

Lemma X2_witness :
  send_message (World [too_many_requests; not_found; accepted] [] [] [])
  = (Raise (MatrixRequestError 404 (resp_text not_found)),
     World [accepted] [message_request; message_request] [seconds 50]
       [Issued message_request; Slept (seconds 50); Issued message_request]).
Proof.
  refine (X2_rate_limit_then_error (H := cpython) _ _ _ _ _ _ _
            message_request [too_many_requests] [50] not_found [accepted]
            [] [] [] prepare_message limited_once _ _).
  - right. simpl. lia.
  - simpl. lia.
Defined.

Lemma X3_witness :
  send_message (World [garbled 200; accepted] [] [] [])
  = (Raise DecodeError,
     World [accepted] [message_request] [] [Issued message_request]).
Proof.
  refine (X3_undecodable_body (H := cpython) _ _ _ _ _ _ _
            message_request (garbled 200) [accepted] [] [] []
            prepare_message _ _).
  - right. simpl. lia.
  - reflexivity.
Defined.

Lemma X4_witness :
  send_message
    (World [answer 429 (PDict [("retry_after_ms", PStr "50")]); accepted]
       [] [] [])
  = (Raise TypeError,
     World [accepted] [message_request] [] [Issued message_request]).
Proof.
  refine (X4_retry_after_not_a_number (H := cpython) _ _ _ _ _ _ _
            message_request
            (answer 429 (PDict [("retry_after_ms", PStr "50")]))
            (PDict [("retry_after_ms", PStr "50")]) (PStr "50")
            [accepted] [] [] [] prepare_message _ _ _ _); reflexivity.
Defined.

Lemma X5_witness :
  exists rq,
    prepare (H := cpython) (init "https://matrix.org" (Some "")) "GET" "/sync"
            PNone (Some (<["since" := "s72594_4483_1934"]> ∅)) None
            default_api_path = Ok rq /\
    req_params rq = <["since" := "s72594_4483_1934"]> ∅ /\
    (forall w : world, exists k : nat,
       sent (snd (_send (H := cpython) (init "https://matrix.org" (Some ""))
                        "GET" "/sync" PNone
                        (Some (<["since" := "s72594_4483_1934"]> ∅)) None
                        default_api_path w))
       = sent w ++ replicate (S k) rq).
Proof.
  refine (X5_no_token_no_parameter (H := cpython)
            (init "https://matrix.org" (Some "")) "GET" "/sync" PNone
            (Some (<["since" := "s72594_4483_1934"]> ∅)) None
            default_api_path _ _).
  - right. reflexivity.
  - simpl. left. reflexivity.
Defined.

Lemma X6_witness :
  exists rq,
    prepare (H := cpython) api "POST" "/upload" (PStr "GIF89a") None
            (Some (<["Content-Type" := "image/gif"]> ∅))
            "/_matrix/media/r0" = Ok rq /\
    req_headers rq = <["Content-Type" := "image/gif"]> ∅ /\
    req_data rq = PStr "GIF89a".
Proof.
  refine (X6_content_type_kept (H := cpython) api "POST" "/upload"
            (PStr "GIF89a") None (<["Content-Type" := "image/gif"]> ∅)
            "image/gif" "/_matrix/media/r0" _ _).
  - simpl. do 3 right. left. reflexivity.
  - reflexivity.
Defined.

Lemma X7_witness :
  exists rq,
    prepare (H := cpython) api "POST" "/createRoom" (PList []) None None
            default_api_path = Ok rq /\
    req_data rq = PStr "{}".
Proof.
  refine (X7_falsy_content_is_empty_object (H := cpython) api "POST"
            "/createRoom" (PList []) None None default_api_path _ _ _).
  - simpl. do 3 right. left. reflexivity.
  - reflexivity.
  - reflexivity.
Defined.

Lemma X8_witness :
  get_display_name (H := cpython) api "@neo:matrix.org"
    (World [profile_name] [] [] [])
  = (Return (PStr "Neo"),
     World []
       [plain_request (H := cpython) api "GET"
          "/profile/@neo:matrix.org/displayname" (PDict [])] []
       [Issued (plain_request (H := cpython) api "GET"
          "/profile/@neo:matrix.org/displayname" (PDict []))])
  /\
  get_avatar_url (H := cpython) api "@neo:matrix.org"
    (World [profile_name] [] [] [])
  = (Return PNone,
     World []
       [plain_request (H := cpython) api "GET"
          "/profile/@neo:matrix.org/avatar_url" (PDict [])] []
       [Issued (plain_request (H := cpython) api "GET"
          "/profile/@neo:matrix.org/avatar_url" (PDict []))]).
Proof.
  refine (X8_profile_lookup (H := cpython) api "@neo:matrix.org"
            profile_name [("displayname", PStr "Neo")] [] [] [] [] _ _).
  - simpl. lia.
  - reflexivity.
Defined.

Lemma X9_witness :
  let after (path : string) :=
    let rq := plain_request (H := cpython) api "GET" path (PDict []) in
    World [] ([] ++ [rq]) [] ([] ++ [Issued rq]) in
  get_display_name (H := cpython) api "@neo:matrix.org"
    (World [json_list] [] [] [])
  = (Raise AttributeError, after "/profile/@neo:matrix.org/displayname") /\
  get_avatar_url (H := cpython) api "@neo:matrix.org"
    (World [json_list] [] [] [])
  = (Raise AttributeError, after "/profile/@neo:matrix.org/avatar_url") /\
  get_room_id (H := cpython) api "@neo:matrix.org"
    (World [json_list] [] [] [])
  = (Raise AttributeError, after "/directory/room/%40neo%3Amatrix.org").
Proof.
  refine (X9_body_not_an_object (H := cpython) api "@neo:matrix.org"
            json_list (PList [PStr "Neo"]) [] [] [] [] _ _ _).
  - simpl. lia.
  - reflexivity.
  - reflexivity.
Defined.

Lemma X10_witness :
  set_display_name (H := cpython) api "@neo:matrix.org" "The One"
    (World [profile_name] [] [] [])
  = (Return PNone,
     World []
       [plain_request (H := cpython) api "PUT"
          "/profile/@neo:matrix.org/displayname"
          (PDict [("displayname", PStr "The One")])] []
       [Issued (plain_request (H := cpython) api "PUT"
          "/profile/@neo:matrix.org/displayname"
          (PDict [("displayname", PStr "The One")]))]).
Proof.
  refine (X10_set_display_name (H := cpython) api "@neo:matrix.org"
            "The One" profile_name (PDict [("displayname", PStr "Neo")])
            [] [] [] [] _ _).
  - simpl. lia.
  - reflexivity.
Defined.

Lemma X11_witness :
  get_room_id (H := cpython) api "#room:matrix.org"
    (World [room_found] [] [] [])
  = (Return (PStr "!MeRdFpEonLoCwhoHeT:matrix.org"),
     World []
       [plain_request (H := cpython) api "GET"
          "/directory/room/%23room%3Amatrix.org" (PDict [])] []
       [Issued (plain_request (H := cpython) api "GET"
          "/directory/room/%23room%3Amatrix.org" (PDict []))]).
Proof.
  refine (X11_get_room_id (H := cpython) api "#room:matrix.org" room_found
            [("room_id", PStr "!MeRdFpEonLoCwhoHeT:matrix.org")]
            [] [] [] [] _ _).
  - simpl. lia.
  - reflexivity.
Defined.

Lemma X12_witness :
  let w := World ([too_many_requests] ++ not_found :: []) [] [] [] in
  let e := MatrixRequestError 404 (resp_text not_found) in
  fst (get_display_name (H := cpython) api "@neo:matrix.org" w) = Raise e /\
  fst (set_display_name (H := cpython) api "@neo:matrix.org" "The One" w)
  = Raise e /\
  fst (get_avatar_url (H := cpython) api "@neo:matrix.org" w) = Raise e /\
  fst (get_room_id (H := cpython) api "@neo:matrix.org" w) = Raise e.
Proof.
  refine (X12_calls_propagate_request_error (H := cpython) api
            "@neo:matrix.org" "The One" [too_many_requests] [50] not_found
            [] [] [] [] limited_once _ _).
  - right. simpl. lia.
  - simpl. lia.
Defined.

Lemma X13_witness :
  get_room_displayname (H := cpython)
    (listing (PDict [("chunk", PList [member "@trinity:matrix.org" "Trinity";
                                      anonymous_entry;
                                      member "@neo:matrix.org" "Neo"])]))
    api "!MeRdFpEonLoCwhoHeT:matrix.org" "@neo:matrix.org" (World [] [] [] [])
  = (Raise (KeyError "sender"), World [] [] [] []).
Proof.
  refine (X13_entry_without_sender (H := cpython) _ api
            "!MeRdFpEonLoCwhoHeT:matrix.org" "@neo:matrix.org"
            (World [] [] [] []) (World [] [] [] []) _ anonymous_entry
            [member "@trinity:matrix.org" "Trinity"]
            [member "@neo:matrix.org" "Neo"] _ _ _ _).
  - eexists. eexists. split; reflexivity.
  - reflexivity.
  - constructor; [|constructor]. eexists. split; reflexivity.
  - reflexivity.
Defined.

Lemma X14_witness :
  get_room_displayname (H := cpython)
    (listing (PDict [("chunk", PList [nameless_entry "@neo:matrix.org";
                                      member "@neo:matrix.org" "Neo"])]))
    api "!MeRdFpEonLoCwhoHeT:matrix.org" "@neo:matrix.org" (World [] [] [] [])
  = (Raise (KeyError "displayname"), World [] [] [] []).
Proof.
  refine (X14_first_match_without_displayname (H := cpython) _ api
            "!MeRdFpEonLoCwhoHeT:matrix.org" "@neo:matrix.org"
            (World [] [] [] []) (World [] [] [] []) _
            (nameless_entry "@neo:matrix.org") (PStr "@neo:matrix.org")
            (PDict [("membership", PStr "join")])
            [] [member "@neo:matrix.org" "Neo"] _ _ _ _ _ _ _).
  - eexists. eexists. split; reflexivity.
  - reflexivity.
  - constructor.
  - reflexivity.
  - reflexivity.
  - reflexivity.
  - reflexivity.
Defined.

Lemma X15_witness :
  get_room_displayname (H := cpython)
    (listing (PDict [("errcode", PStr "M_FORBIDDEN")]))
    api "!MeRdFpEonLoCwhoHeT:matrix.org" "@neo:matrix.org" (World [] [] [] [])
  = (Raise (KeyError "chunk"), World [] [] [] []).
Proof.
  refine (X15_listing_without_chunk (H := cpython) _ api
            "!MeRdFpEonLoCwhoHeT:matrix.org" "@neo:matrix.org"
            (World [] [] [] []) (World [] [] [] [])
            (PDict [("errcode", PStr "M_FORBIDDEN")]) _ _).
  - eexists. eexists. split; reflexivity.
  - reflexivity.
Defined.

Lemma X16_witness :
  get_room_displayname (H := cpython) (listing room_members) api
    "#nowhere:matrix.org" "@neo:matrix.org"
    (World [not_found; answer 200 room_members] [] [] [])
  = (Raise (MatrixRequestError 404 (resp_text not_found)),
     World [answer 200 room_members]
       [plain_request (H := cpython) api "GET"
          "/directory/room/%23nowhere%3Amatrix.org" (PDict [])] []
       [Issued (plain_request (H := cpython) api "GET"
          "/directory/room/%23nowhere%3Amatrix.org" (PDict []))]).
Proof.
  refine (X16_alias_lookup_fails (H := cpython) (listing room_members) api
            "#nowhere:matrix.org" "@neo:matrix.org" not_found
            [answer 200 room_members] [] [] [] _ _ _).
  - reflexivity.
  - right. simpl. lia.
  - simpl. lia.
Defined.

(** The answer to the alias lookup has no [room_id]: the listing is
    asked for [None]. *)
Lemma X17_witness :
  get_room_displayname (H := cpython) (listing room_members) api
    "#room:matrix.org" "@neo:matrix.org" (World [empty_object] [] [] [])
  = lift (find_member
            [member "@trinity:matrix.org" "Trinity";
             member "@neo:matrix.org" "Neo";
             member "@neo:matrix.org" "Mr Anderson"] "@neo:matrix.org")
         (World []
            [plain_request (H := cpython) api "GET"
               "/directory/room/%23room%3Amatrix.org" (PDict [])] []
            [Issued (plain_request (H := cpython) api "GET"
               "/directory/room/%23room%3Amatrix.org" (PDict []))]).
Proof.
  refine (X17_alias_resolved_first (H := cpython) (listing room_members) api
            "#room:matrix.org" "@neo:matrix.org" empty_object [] [] [] [] []
            room_members _ _ _ _ _ _ _).
  - reflexivity.
  - simpl. lia.
  - reflexivity.
  - reflexivity.
  - reflexivity.
Defined.

(** A retry-after of 10^400 ms: no sleep, [OverflowError]. *)
Lemma X18_witness :
  send_message (World [too_many_digits; accepted] [] [] [])
  = (Raise OverflowError,
     World [accepted] [message_request] [] [Issued message_request]).
Proof.
  refine (X18_retry_after_too_large (H := cpython) _ _ _ _ _ _ _
            message_request too_many_digits
            (PDict [("retry_after_ms", PInt (10 ^ 400))]) (10 ^ 400)
            [accepted] [] [] [] prepare_message _ _ _ _).
  - reflexivity.
  - reflexivity.
  - reflexivity.
  - apply Z.leb_le. vm_compute. reflexivity.
Defined.

(** 50 ms, then forever: the 200 that follows is never read. *)
Lemma X19_witness :
  send_message
    (World [too_many_requests; too_many_forever; accepted] [] [] [])
  = (Pending,
     World [accepted] [message_request; message_request]
       [seconds 50; Infinity false]
       [Issued message_request; Slept (seconds 50);
        Issued message_request; Slept (Infinity false)]).
Proof.
  refine (X19_infinite_retry_after (H := cpython) _ _ _ _ _ _ _
            message_request [too_many_requests] [50] too_many_forever
            (PDict [("retry_after_ms", PFloat (Infinity false))])
            [accepted] [] [] [] prepare_message limited_once _ _ _);
    reflexivity.
Defined.

(** 50.5 ms, then a 200. *)
Lemma X20_witness :
  send_message (World [too_many_and_a_half; accepted] [] [] [])
  = (Return (PDict [("event_id", PStr "$abc:matrix.org")]),
     World [] [message_request; message_request]
       [Finite ((101 # 2) / inject_Z 1000)%Q]
       [Issued message_request;
        Slept (Finite ((101 # 2) / inject_Z 1000)%Q);
        Issued message_request]).
Proof.
  refine (X20_fractional_retry_after (H := cpython) _ _ _ _ _ _ _
            message_request too_many_and_a_half
            (PDict [("retry_after_ms", PFloat (Finite (101 # 2)))])
            (101 # 2) accepted _ [] [] [] [] prepare_message _ _ _ _ _).
  - reflexivity.
  - reflexivity.
  - reflexivity.
  - simpl. lia.
  - reflexivity.
Defined.

End TransportExtra.
